(** * serverless-lumigo: a shallow embedding of [src/index.js]

    The plugin class [LumigoPlugin] is modelled as a reader/state/error
    monad: the read-only part of the host (provider runtime, custom
    configuration, files on disk, the project's package.json) is an
    environment, the mutable part (the function registry, the service-level
    package object, the memoised "tracer installed" flag) and the external
    effects (files written, commands executed, directories removed, log
    lines) are a state, and a thrown [serverless.classes.Error] is an error
    result that keeps the effects performed before it. *)

From Stdlib Require Import String Ascii List ZArith Bool Lia DecimalString.
Import ListNotations.
Open Scope list_scope.
Open Scope string_scope.

(** ** Characters and JavaScript string primitives *)

Definition chr (n : nat) : string := String (ascii_of_nat n) EmptyString.
Definition NL : string := chr 10.
Definition TAB : string := chr 9.
(** the double quote, which a string literal here cannot hold *)
Definition DQ : string := chr 34.

Definition dot : ascii := "."%char.
Definition slash : ascii := "/"%char.

(** [s.lastIndexOf(c)] for a one-character pattern: [-1] when absent. *)
Fixpoint lastIndexOf_from (c : ascii) (s : string) (i : nat) (acc : Z) : Z :=
  match s with
  | EmptyString => acc
  | String a s' =>
      lastIndexOf_from c s' (S i) (if Ascii.eqb a c then Z.of_nat i else acc)
  end.

Definition lastIndexOf (c : ascii) (s : string) : Z := lastIndexOf_from c s 0 (-1).

(** [s.substr(start, length)] (ECMA-262 Annex B), [length] optional. *)
Definition substr (s : string) (start : Z) (len : option Z) : string :=
  let size := Z.of_nat (String.length s) in
  let st := if Z.ltb start 0 then Z.max (size + start) 0 else Z.min start size in
  let l := match len with None => size | Some l => l end in
  let l := Z.min (Z.max l 0) size in
  let en := Z.min (st + l) size in
  String.substring (Z.to_nat st) (Z.to_nat (en - st)) s.

(** [s.includes(t)] *)
Definition includes (t s : string) : bool :=
  match String.index 0 t s with Some _ => true | None => false end.

(** [s.startsWith(t)] *)
Definition startsWith (s t : string) : bool := String.prefix t s.

(** [s.toLowerCase()] on ASCII text *)
Definition lower_ascii (a : ascii) : ascii :=
  let n := nat_of_ascii a in
  if Nat.leb 65 n && Nat.leb n 90 then ascii_of_nat (n + 32) else a.

Fixpoint toLowerCase (s : string) : string :=
  match s with
  | EmptyString => EmptyString
  | String a s' => String (lower_ascii a) (toLowerCase s')
  end.

(** [s.split(sep).join(j)] for one-character [sep] and [j]: every
    occurrence of [sep] replaced by [j]. *)
Fixpoint split_join (sep j : ascii) (s : string) : string :=
  match s with
  | EmptyString => EmptyString
  | String a s' =>
      String (if Ascii.eqb a sep then j else a) (split_join sep j s')
  end.

(** [arr.includes(x)] on an array of strings *)
Definition arr_includes (xs : list string) (x : string) : bool :=
  existsb (String.eqb x) xs.

(** ** Node's [path] module (POSIX) *)

Fixpoint drop_while_slash (l : list ascii) : list ascii :=
  match l with
  | a :: l' => if Ascii.eqb a slash then drop_while_slash l' else l
  | [] => []
  end.

Fixpoint take_until_slash (l : list ascii) : list ascii :=
  match l with
  | a :: l' => if Ascii.eqb a slash then [] else a :: take_until_slash l'
  | [] => []
  end.

(** [path.basename(p)]: trailing separators are ignored, then the text
    after the last separator is returned. *)
Definition basename (p : string) : string :=
  string_of_list_ascii
    (rev (take_until_slash (drop_while_slash (rev (list_ascii_of_string p))))).

(** ** Handler reference parser (createWrappedNodejsFunction, lines 299-304) *)

(** [func.handler.substr(0, func.handler.lastIndexOf("."))] *)
Definition handlerModulePath (h : string) : string :=
  substr h 0 (Some (lastIndexOf dot h)).

(** [handler.substr(handler.lastIndexOf(".") + 1)] with
    [handler = path.basename(func.handler)] *)
Definition handlerFuncName (h : string) : string :=
  let handler := basename h in
  substr handler (lastIndexOf dot handler + 1)%Z None.

(** createWrappedPythonFunction, lines 336-339: the module path with every
    "/" replaced by "." *)
Definition pythonHandlerModulePath (h : string) : string :=
  split_join slash dot (substr h 0 (Some (lastIndexOf dot h))).

(** [str.split("/")]: the pieces between separators, empty ones included *)
Fixpoint split_slash (s : string) : list string :=
  match s with
  | EmptyString => [""]
  | String a s' =>
      let r := split_slash s' in
      if Ascii.eqb a slash then "" :: r
      else match r with
           | x :: r' => String a x :: r'
           | [] => [String a ""]
           end
  end.

(** [arr.join(sep)] *)
Fixpoint join_with (sep : string) (l : list string) : string :=
  match l with
  | [] => ""
  | [x] => x
  | x :: l' => x ++ sep ++ join_with sep l'
  end.

(** the segment loop of Node's [normalizeString]; [acc] is the stack of
    kept segments, most recent first *)
Fixpoint normalize_segs (allowAboveRoot : bool) (acc segs : list string) : list string :=
  match segs with
  | [] => acc
  | x :: r =>
      if String.eqb x "" || String.eqb x "." then normalize_segs allowAboveRoot acc r
      else if String.eqb x ".." then
        match acc with
        | y :: acc' =>
            if String.eqb y ".." then
              normalize_segs allowAboveRoot (if allowAboveRoot then ".." :: acc else acc) r
            else normalize_segs allowAboveRoot acc' r
        | [] => normalize_segs allowAboveRoot (if allowAboveRoot then [".."] else []) r
        end
      else normalize_segs allowAboveRoot (x :: acc) r
  end.

Definition first_char_is_slash (s : string) : bool :=
  match s with String a _ => Ascii.eqb a slash | EmptyString => false end.

Definition last_char_is_slash (s : string) : bool :=
  match rev (list_ascii_of_string s) with a :: _ => Ascii.eqb a slash | [] => false end.

(** [path.normalize(p)] *)
Definition normalize (p : string) : string :=
  if String.eqb p "" then "." else
  let isAbsolute := first_char_is_slash p in
  let trailingSeparator := last_char_is_slash p in
  let q := join_with "/" (rev (normalize_segs (negb isAbsolute) [] (split_slash p))) in
  let q := if String.eqb q "" && negb isAbsolute then "." else q in
  let q := if negb (String.eqb q "") && trailingSeparator then q ++ "/" else q in
  if isAbsolute then "/" ++ q else q.

(** [path.join(...args)] *)
Definition path_join (args : list string) : string :=
  match filter (fun a => negb (String.eqb a "")) args with
  | [] => "."
  | l => normalize (join_with "/" l)
  end.

Fixpoint drop_while_nonslash (l : list ascii) : list ascii :=
  match l with
  | a :: l' => if Ascii.eqb a slash then l else drop_while_nonslash l'
  | [] => []
  end.

(** [path.dirname(p)]: scanning back from the end (index 1 at the
    lowest), trailing separators are skipped, then the last separator
    before them ends the result. *)
Definition dirname (p : string) : string :=
  match list_ascii_of_string p with
  | [] => "."
  | c0 :: t =>
      let hasRoot := Ascii.eqb c0 slash in
      let r2 := drop_while_nonslash (drop_while_slash (rev t)) in
      match r2 with
      | [] => if hasRoot then "/" else "."
      | _ :: rest =>
          if hasRoot && Nat.eqb (length r2) 1 then "//"
          else string_of_list_ascii (c0 :: rev rest)
      end
  end.

(** [path.resolve(cwd, p)] for the paths used here: a relative path is
    taken from the working directory; the result has no trailing
    separator. *)
Definition resolve (cwd p : string) : string :=
  let q := if first_char_is_slash p then normalize p else normalize (cwd ++ "/" ++ p) in
  if (1 <? String.length q)%nat && last_char_is_slash q
  then substr q 0 (Some (Z.of_nat (String.length q) - 1))%Z else q.

Fixpoint drop_common {A} (eqb : A -> A -> bool) (l1 l2 : list A) : list A * list A :=
  match l1, l2 with
  | x :: l1', y :: l2' => if eqb x y then drop_common eqb l1' l2' else (l1, l2)
  | _, _ => (l1, l2)
  end.

(** [path.relative(from, to)]: after resolving both, one [".."] for each
    segment of [from] past the common prefix, then the rest of [to]. *)
Definition relative (cwd from to : string) : string :=
  let f := resolve cwd from in
  let t := resolve cwd to in
  if String.eqb f t then "" else
  let nonempty := filter (fun x => negb (String.eqb x "")) in
  let '(fs, ts) := drop_common String.eqb (nonempty (split_slash f)) (nonempty (split_slash t)) in
  join_with "/" (app (map (fun _ => "..") fs) ts).

(** ** Data model *)

(** a declared function ([serverless.service.functions[name]]) *)
Record FunctionDecl := mkFunctionDecl {
  handler : string;
  events : list string;
  fn_runtime : option string;
  tags : list (string * string);
  environment : list (string * string);
  layers : list string;
  (** [lumigo.enabled]: the per-function opt-out flag of the spec *)
  lumigo_enabled : option bool
}.

(** [serverless.service.package] *)
Record Package := mkPackage {
  include : option (list string);
  individually : option bool
}.

(** [serverless.service.custom.lumigo] *)
Record LumigoConfig := mkLumigoConfig {
  token : option string;
  edgeHost : option string;
  nodePackageManager_cfg : option string;
  useLayers : option bool
}.

(** the read-only part of the host *)
Record Env := mkEnv {
  servicePath : string;            (** [serverless.config.servicePath] *)
  cwd : string;                    (** the process working directory *)
  provider_runtime : string;       (** [service.provider.runtime] *)
  lumigo : LumigoConfig;
  pythonRequirementsFileName : option string; (** [custom.pythonRequirements.fileName] *)
  plugins : list string;           (** [service.plugins] *)
  (** [require(servicePath/package.json)]: [None] when it throws, else
      whether its dependencies list [@lumigo/tracer] *)
  packageJson : option bool;
  disk : list (string * string);   (** files readable by path *)
  option_function : option string  (** [this.options.function] *)
}.

(** the mutable part of the host and the effects *)
Record St := mkSt {
  functions : list (string * FunctionDecl);  (** keys in declaration order *)
  package : option Package;
  isNodeTracerInstalled_memo : option bool;  (** [this._isNodeTracerInstalled] *)
  written : list (string * string);          (** [fs.outputFile(path, content)] *)
  executed : list string;                    (** [childProcess.execSync(cmd)] *)
  removed : list string;                     (** [fs.remove(path)] *)
  logged : list string                       (** [this.log(msg)] *)
}.

Definition set_functions (fs : list (string * FunctionDecl)) (s : St) : St :=
  mkSt fs (package s) (isNodeTracerInstalled_memo s) (written s) (executed s) (removed s) (logged s).
Definition set_package (p : option Package) (s : St) : St :=
  mkSt (functions s) p (isNodeTracerInstalled_memo s) (written s) (executed s) (removed s) (logged s).
Definition set_memo (b : bool) (s : St) : St :=
  mkSt (functions s) (package s) (Some b) (written s) (executed s) (removed s) (logged s).
Definition add_written (w : string * string) (s : St) : St :=
  mkSt (functions s) (package s) (isNodeTracerInstalled_memo s) (app (written s) [w]) (executed s) (removed s) (logged s).
Definition add_executed (c : string) (s : St) : St :=
  mkSt (functions s) (package s) (isNodeTracerInstalled_memo s) (written s) (app (executed s) [c]) (removed s) (logged s).
Definition add_removed (p : string) (s : St) : St :=
  mkSt (functions s) (package s) (isNodeTracerInstalled_memo s) (written s) (executed s) (app (removed s) [p]) (logged s).
Definition add_logged (m : string) (s : St) : St :=
  mkSt (functions s) (package s) (isNodeTracerInstalled_memo s) (written s) (executed s) (removed s) (app (logged s) [m]).

Definition set_handler_decl (h : string) (d : FunctionDecl) : FunctionDecl :=
  mkFunctionDecl h (events d) (fn_runtime d) (tags d) (environment d) (layers d) (lumigo_enabled d).

(** ** The plugin monad: reader (host), state, error (a thrown Error) *)

Inductive res (A : Type) : Type :=
| Ok (a : A)
| Err (msg : string).
Arguments Ok {A} a.
Arguments Err {A} msg.

Definition M (A : Type) : Type := Env -> St -> res A * St.

Definition ret {A} (a : A) : M A := fun _ s => (Ok a, s).
Definition bind {A B} (m : M A) (k : A -> M B) : M B :=
  fun e s => match m e s with
             | (Ok a, s') => k a e s'
             | (Err msg, s') => (Err msg, s')
             end.
Definition throw {A} (msg : string) : M A := fun _ s => (Err msg, s).
Definition ask {A} (f : Env -> A) : M A := fun e s => (Ok (f e), s).
Definition gets {A} (f : St -> A) : M A := fun _ s => (Ok (f s), s).
Definition modify (f : St -> St) : M unit := fun _ s => (Ok tt, f s).

Notation "x <- m ;; k" := (bind m (fun x => k))
  (at level 61, m at next level, right associativity).
Notation "m ;;; k" := (bind m (fun _ => k))
  (at level 61, right associativity).

Fixpoint for_each {A} (f : A -> M unit) (l : list A) : M unit :=
  match l with
  | [] => ret tt
  | x :: l' => f x ;;; for_each f l'
  end.

(** [this.log(msg)]; [this.verboseLog] (printed only under [SLS_DEBUG])
    is not modelled. *)
Definition log (msg : string) : M unit := modify (add_logged ("serverless-lumigo: " ++ msg)).

Definition outputFile (path content : string) : M unit := modify (add_written (path, content)).
Definition execSync (cmd : string) : M unit := modify (add_executed cmd).
Definition fs_remove (path : string) : M unit := modify (add_removed path).

(** [this.folderPath = path.join(servicePath, "_lumigo")] *)
Definition folderPath (e : Env) : string := path_join [servicePath e; "_lumigo"].

(** [n.toString()] for the log line *)
Definition nat_to_string (n : nat) : string :=
  NilZero.string_of_uint (Nat.to_uint n).

(** ** The plugin ([class LumigoPlugin]) *)

Inductive family := Nodejs | Python | Unsupported.

(** a deep copy of a declared function with its [localName] *)
Record Target := mkTarget { localName : string; decl : FunctionDecl }.

Fixpoint lookup_fn (n : string) (fs : list (string * FunctionDecl)) : option FunctionDecl :=
  match fs with
  | [] => None
  | (k, d) :: fs' => if String.eqb k n then Some d else lookup_fn n fs'
  end.

(** [service.getAllFunctions()] *)
Definition getAllFunctions : M (list string) := gets (fun s => map fst (functions s)).

(** [getFunctionsToWrap(service, functionNames)], lines 135-155 *)
Definition getFunctionsToWrap (functionNames : option (list string)) : M (family * list Target) :=
  all <- getAllFunctions ;;
  let names := match functionNames with Some l => l | None => all end in
  fs <- gets functions ;;
  let targets :=
    flat_map (fun n => match lookup_fn n fs with
                       | Some d => [mkTarget n d]
                       | None => []
                       end)
             (filter (arr_includes names) all) in
  rt <- ask provider_runtime ;;
  if startsWith rt "nodejs" then ret (Nodejs, targets)
  else if startsWith rt "python3" then ret (Python, targets)
  else log ("unsupported runtime: [" ++ rt ++ "], skipped...") ;;; ret (Unsupported, []).

(** [isLumigoNodejsInstalled()], lines 157-175: a failing [require] counts
    as "not installed" *)
Definition isLumigoNodejsInstalled : M bool :=
  pj <- ask packageJson ;;
  ret (match pj with Some b => b | None => false end).

(** the memoised getter [isNodeTracerInstalled], lines 35-43 *)
Definition isNodeTracerInstalled : M bool :=
  memo <- gets isNodeTracerInstalled_memo ;;
  match memo with
  | Some b => ret b
  | None => b <- isLumigoNodejsInstalled ;; modify (set_memo b) ;;; ret b
  end.

(** the getter [nodePackageManager], lines 45-51 *)
Definition nodePackageManager : M string :=
  c <- ask (fun e => nodePackageManager_cfg (lumigo e)) ;;
  ret (toLowerCase (match c with Some m => m | None => "npm" end)).

Definition no_package_manager_msg : string :=
  "No Node.js package manager found. Please install either NPM or Yarn.".

(** [installLumigoNodejs()], lines 177-197 *)
Definition installLumigoNodejs : M unit :=
  installed <- isNodeTracerInstalled ;;
  if installed then ret tt else
  log "installing @lumigo/tracer..." ;;;
  pm <- nodePackageManager ;;
  installCommand <-
    (if String.eqb pm "npm" then ret "npm install --no-save @lumigo/tracer@latest"
     else if String.eqb pm "yarn" then ret "yarn add @lumigo/tracer@latest"
     else throw no_package_manager_msg) ;;
  execSync installCommand.

(** [uninstallLumigoNodejs()], lines 199-218 *)
Definition uninstallLumigoNodejs : M unit :=
  installed <- isNodeTracerInstalled ;;
  if installed then ret tt else
  log "uninstalling @lumigo/tracer..." ;;;
  pm <- nodePackageManager ;;
  uninstallCommand <-
    (if String.eqb pm "npm" then ret "npm uninstall @lumigo/tracer"
     else if String.eqb pm "yarn" then ret "yarn remove @lumigo/tracer"
     else throw no_package_manager_msg) ;;
  execSync uninstallCommand.

(** the inner [ensureTracerInstalled(fileName)], lines 226-243 *)
Definition ensureTracerInstalled (slsPythonInstalled : bool) (fileName : string) : M unit :=
  dsk <- ask disk ;;
  match find (fun kv => String.eqb (fst kv) fileName) dsk with
  | None =>
      throw (fileName ++ " is not found." ++
             (if slsPythonInstalled then "" else
                NL ++ "Consider using the serverless-python-requirements plugin to help you package Python dependencies."))
  | Some (_, requirements) =>
      if includes "lumigo_tracer" requirements then ret tt
      else throw ("lumigo_tracer is not installed. Please check " ++ fileName ++ ".")
  end.

(** [ensureLumigoPythonIsInstalled()], lines 220-280 *)
Definition ensureLumigoPythonIsInstalled : M unit :=
  log "checking if lumigo_tracer is installed..." ;;;
  pl <- ask plugins ;;
  let slsPythonInstalled := arr_includes pl "serverless-python-requirements" in
  pkg <- gets package ;;
  let packageIndividually :=
    match pkg with
    | Some p => match individually p with Some b => b | None => false end
    | None => false
    end in
  override <- ask pythonRequirementsFileName ;;
  if packageIndividually then
    log "functions are packed individually, ensuring each function has a requirement.txt..." ;;;
    r <- getFunctionsToWrap None ;;
    for_each (fun fn =>
                let dir := dirname (handler (decl fn)) in
                let defaultRequirementsFilename := path_join [dir; "requirements.txt"] in
                let requirementsFilename :=
                  match override with Some f => f | None => defaultRequirementsFilename end in
                ensureTracerInstalled slsPythonInstalled requirementsFilename)
             (snd r)
  else
    log "ensuring there is a requirement.txt or equivalent..." ;;;
    ensureTracerInstalled slsPythonInstalled
      (match override with Some f => f | None => "requirements.txt" end).

(** [getNodeTracerParameters(token, edgeHost)], lines 282-291; [edgeHost]
    is pushed only when truthy, i.e. set and not empty *)
Definition getNodeTracerParameters (tok : option string) (edge : option string) : M string :=
  match tok with
  | None => throw "Lumigo's tracer token is undefined"
  | Some t =>
      let configuration :=
        app ["token: '" ++ t ++ "'"]
            (match edge with
             | Some e => if String.eqb e "" then [] else ["edgeHost: '" ++ e ++ "'"]
             | None => []
             end) in
      ret (join_with "," configuration)
  end.

(** the template literal of lines 305-312 *)
Definition nodejsWrapper (params handlerModulePath handlerFuncName : string) : string :=
  NL ++ "const tracer = require(" ++ DQ ++ "@lumigo/tracer" ++ DQ ++ ")({" ++ NL ++
  TAB ++ params ++ NL ++
  "});" ++ NL ++
  "const handler = require('../" ++ handlerModulePath ++ "')." ++ handlerFuncName ++ ";" ++ NL ++
  NL ++
  "module.exports." ++ handlerFuncName ++ " = tracer.trace(handler);" ++ NL ++
  "    ".

(** [newFilePath.substr(0, newFilePath.lastIndexOf(".") + 1) + handlerFuncName] *)
Definition tracedHandler (newFilePath handlerFuncName : string) : string :=
  substr newFilePath 0 (Some (lastIndexOf dot newFilePath + 1)%Z) ++ handlerFuncName.

(** [createWrappedNodejsFunction(func, token, edgeHost)], lines 293-325 *)
Definition createWrappedNodejsFunction (func : Target) (tok edge : option string) : M string :=
  let h := handler (decl func) in
  let mp := handlerModulePath h in
  let fname := handlerFuncName h in
  params <- getNodeTracerParameters tok edge ;;
  let wrappedFunction := nodejsWrapper params mp fname in
  let fileName := localName func ++ ".js" in
  fp <- ask folderPath ;;
  let filePath := path_join [fp; fileName] in
  outputFile filePath wrappedFunction ;;;
  sp <- ask servicePath ;;
  wd <- ask cwd ;;
  let newFilePath := relative wd sp filePath in
  ret (tracedHandler newFilePath fname).

(** the template literal of lines 343-350 *)
Definition pythonWrapper (tok handlerModulePath handlerFuncName : string) : string :=
  NL ++ "from lumigo_tracer import lumigo_tracer" ++ NL ++
  "from " ++ handlerModulePath ++ " import " ++ handlerFuncName ++ " as userHandler" ++ NL ++
  NL ++
  "@lumigo_tracer(token='" ++ tok ++ "')" ++ NL ++
  "def " ++ handlerFuncName ++ "(event, context):" ++ NL ++
  "  return userHandler(event, context)" ++ NL ++
  "    ".

(** [createWrappedPythonFunction(func, token)], lines 327-363 *)
Definition createWrappedPythonFunction (func : Target) (tok : string) : M string :=
  let h := handler (decl func) in
  let mp := pythonHandlerModulePath h in
  let fname := handlerFuncName h in
  let wrappedFunction := pythonWrapper tok mp fname in
  let fileName := localName func ++ ".py" in
  fp <- ask folderPath ;;
  let filePath := path_join [fp; fileName] in
  outputFile filePath wrappedFunction ;;;
  sp <- ask servicePath ;;
  wd <- ask cwd ;;
  let newFilePath := relative wd sp filePath in
  ret (tracedHandler newFilePath fname).

(** [this.serverless.service.functions[name].handler = h] *)
Definition setHandler (name h : string) : M unit :=
  modify (fun s => set_functions
                     (map (fun kv => if String.eqb (fst kv) name
                                     then (fst kv, set_handler_decl h (snd kv)) else kv)
                          (functions s)) s).

Definition missing_token_msg : string :=
  "serverless-lumigo: Unable to find token. Please follow https://github.com/lumigo-io/serverless-lumigo".

(** lines 114-118: append "_lumigo/*" to [service.package.include] *)
Definition includeLumigoFolder : M unit :=
  pkg <- gets package ;;
  match pkg with
  | Some p =>
      let inc := match include p with Some l => l | None => [] end in
      modify (set_package (Some (mkPackage (Some (app inc ["_lumigo/*"])) (individually p))))
  | None => ret tt
  end.

(** [wrapFunctions(functionNames)], lines 61-119 *)
Definition wrapFunctions (functionNames : option (list string)) : M unit :=
  r <- getFunctionsToWrap functionNames ;;
  let '(rt, fns) := r in
  log ("there are " ++ nat_to_string (length fns) ++ " function(s) to wrap...") ;;;
  if Nat.eqb (length fns) 0 then ret tt else
  tok <- ask (fun e => token (lumigo e)) ;;
  edge <- ask (fun e => edgeHost (lumigo e)) ;;
  match tok with
  | None => throw missing_token_msg
  | Some t =>
      match rt with
      | Nodejs =>
          installLumigoNodejs ;;;
          for_each (fun func => h <- createWrappedNodejsFunction func tok edge ;;
                                setHandler (localName func) h) fns
      | Python =>
          ensureLumigoPythonIsInstalled ;;;
          for_each (fun func => h <- createWrappedPythonFunction func t ;;
                                setHandler (localName func) h) fns
      | Unsupported => ret tt
      end ;;;
      includeLumigoFolder
  end.

(** [cleanFolder()], lines 365-368 *)
Definition cleanFolder : M unit := fp <- ask folderPath ;; fs_remove fp.

(** [afterCreateDeploymentArtifacts()], lines 121-133: the [cleanup] of
    the spec *)
Definition afterCreateDeploymentArtifacts : M unit :=
  r <- getFunctionsToWrap None ;;
  let '(rt, fns) := r in
  if Nat.eqb (length fns) 0 then ret tt else
  cleanFolder ;;;
  match rt with
  | Nodejs => uninstallLumigoNodejs
  | _ => ret tt
  end.

(** the hooks, lines 53-59; [[this.options.function]] with the option
    unset is [[undefined]], which matches no function name *)
Definition afterPackageInitialize : M unit := wrapFunctions None.
Definition afterDeployFunctionInitialize : M unit :=
  f <- ask option_function ;;
  wrapFunctions (Some (match f with Some n => [n] | None => [] end)).

(** ** Frame predicates *)

(** [has_char c s]: the character [c] occurs in [s] *)
Fixpoint has_char (c : ascii) (s : string) : bool :=
  match s with
  | EmptyString => false
  | String a s' => Ascii.eqb a c || has_char c s'
  end.

(** [m] keeps [P] of the state, whatever its outcome *)
Definition preserves (P : St -> Prop) {A} (m : M A) : Prop :=
  forall e s, P s -> P (snd (m e s)).

(** the names of the functions a call of [getFunctionsToWrap] returns *)
Definition eligible (names : option (list string)) (e : Env) (s : St) : list string :=
  match fst (getFunctionsToWrap names e s) with
  | Ok (_, ts) => map localName ts
  | Err _ => []
  end.

(** a declared function after a pass: same key, only its handler may
    differ, and only when it was eligible *)
Definition fn_frame (E : list string) (kd kd' : string * FunctionDecl) : Prop :=
  fst kd' = fst kd /\
  snd kd' = set_handler_decl (handler (snd kd')) (snd kd) /\
  (~ In (fst kd) E -> snd kd' = snd kd).

Definition frame (E : list string) (f0 : list (string * FunctionDecl)) (p0 : option Package)
  (s : St) : Prop :=
  Forall2 (fn_frame E) f0 (functions s) /\ package s = p0.

(** the package object after [includeLumigoFolder] *)
Definition with_lumigo_include (p : Package) : Package :=
  mkPackage (Some (app (match include p with Some l => l | None => [] end) ["_lumigo/*"]))
            (individually p).

(** the host with [custom.lumigo.useLayers] set to [u] *)
Definition with_useLayers (u : option bool) (e : Env) : Env :=
  mkEnv (servicePath e) (cwd e) (provider_runtime e)
    (mkLumigoConfig (token (lumigo e)) (edgeHost (lumigo e)) (nodePackageManager_cfg (lumigo e)) u)
    (pythonRequirementsFileName e) (plugins e) (packageJson e) (disk e) (option_function e).

(** [m] does not read the [useLayers] setting *)
Definition layers_blind {A} (m : M A) : Prop :=
  forall u e s, m (with_useLayers u e) s = m e s.

(** a path segment that [normalize] keeps as it is *)
Definition plain_seg (x : string) : Prop :=
  has_char slash x = false /\ x <> "" /\ x <> "." /\ x <> "..".

Definition nonempty_segs (l : list string) : list string :=
  filter (fun x => negb (String.eqb x "")) l.

(** the kept segments of an absolute path, most recent first *)
Definition abs_segs (p : string) : list string := normalize_segs false [] (split_slash p).

(** ** Fixtures in the style of the repository's tests *)

Definition plain_fn (h : string) : FunctionDecl := mkFunctionDecl h [] None [] [] [] None.

Definition test_config (tok edge : option string) : LumigoConfig :=
  mkLumigoConfig tok edge None None.

Definition test_env (rt : string) (cfg : LumigoConfig) : Env :=
  mkEnv "/svc" "/" rt cfg None [] None [("requirements.txt", "lumigo_tracer")] None.

Definition test_st (fs : list (string * FunctionDecl)) : St :=
  mkSt fs (Some (mkPackage None None)) None [] [] [] [].

(** a function whose own settings opt out of tracing *)
Definition opt_out_fn : FunctionDecl := mkFunctionDecl "will.skip" [] None [] [] [] (Some false).

(** ** Lemmas on the string primitives *)

Lemma list_ascii_of_string_app (s1 s2 : string) :
  list_ascii_of_string (s1 ++ s2) = app (list_ascii_of_string s1) (list_ascii_of_string s2).
Proof. induction s1 as [|a s1 IH]; simpl; [reflexivity | now rewrite IH]. Qed.

Lemma string_of_list_ascii_app (l1 l2 : list ascii) :
  string_of_list_ascii (app l1 l2) = string_of_list_ascii l1 ++ string_of_list_ascii l2.
Proof. induction l1 as [|a l1 IH]; simpl; [reflexivity | now rewrite IH]. Qed.

Lemma has_char_list (c : ascii) (s : string) :
  has_char c s = existsb (fun a => Ascii.eqb a c) (list_ascii_of_string s).
Proof. induction s as [|a s IH]; simpl; [reflexivity | now rewrite IH]. Qed.

Lemma lastIndexOf_from_app (c : ascii) (s1 s2 : string) (i : nat) (acc : Z) :
  lastIndexOf_from c (s1 ++ s2) i acc =
  lastIndexOf_from c s2 (i + String.length s1) (lastIndexOf_from c s1 i acc).
Proof.
  revert i acc; induction s1 as [|a s1 IH]; intros i acc; simpl.
  - now rewrite Nat.add_0_r.
  - rewrite IH. now rewrite Nat.add_succ_r.
Qed.

Lemma lastIndexOf_from_absent (c : ascii) (s : string) (i : nat) (acc : Z) :
  has_char c s = false -> lastIndexOf_from c s i acc = acc.
Proof.
  revert i acc; induction s as [|a s IH]; intros i acc H; simpl in *; [reflexivity|].
  apply orb_false_iff in H as [H1 H2]. rewrite H1. now apply IH.
Qed.

(** the last "." of [p ++ "." ++ f] is the one after [p] when [f] has none *)
Lemma lastIndexOf_dot_last (p f : string) :
  has_char dot f = false ->
  lastIndexOf dot (p ++ String dot f) = Z.of_nat (String.length p).
Proof.
  intros H. unfold lastIndexOf. rewrite lastIndexOf_from_app. simpl.
  apply lastIndexOf_from_absent. exact H.
Qed.

Lemma lastIndexOf_absent (c : ascii) (s : string) :
  has_char c s = false -> lastIndexOf c s = (-1)%Z.
Proof. intros H. now apply lastIndexOf_from_absent. Qed.

Lemma substring_prefix (p s : string) :
  String.substring 0 (String.length p) (p ++ s) = p.
Proof. induction p as [|a p IH]; simpl; [now destruct s | now rewrite IH]. Qed.

Lemma substring_skip (p s : string) (m : nat) :
  String.substring (String.length p) m (p ++ s) = String.substring 0 m s.
Proof. induction p as [|a p IH]; simpl; [reflexivity | exact IH]. Qed.

Lemma substring_all (s : string) : String.substring 0 (String.length s) s = s.
Proof. induction s as [|a s IH]; simpl; [reflexivity | now rewrite IH]. Qed.

Lemma length_app (s1 s2 : string) :
  String.length (s1 ++ s2) = String.length s1 + String.length s2.
Proof. induction s1 as [|a s1 IH]; simpl; [reflexivity | now rewrite IH]. Qed.

(** [s.substr(0, k)] for [0 <= k <= s.length] *)
Lemma substr_prefix (s : string) (k : nat) :
  k <= String.length s -> substr s 0 (Some (Z.of_nat k)) = String.substring 0 k s.
Proof.
  intros Hk. unfold substr. simpl.
  replace (Z.min 0 (Z.of_nat (String.length s))) with 0%Z by lia.
  f_equal. lia.
Qed.

(** [s.substr(k)] for [0 <= k <= s.length] *)
Lemma substr_suffix (s : string) (k : nat) :
  k <= String.length s ->
  substr s (Z.of_nat k) None = String.substring k (String.length s - k) s.
Proof.
  intros Hk. unfold substr.
  replace (Z.of_nat k <? 0)%Z with false by (symmetry; apply Z.ltb_ge; lia).
  f_equal; lia.
Qed.

Lemma take_until_slash_app (l1 l2 : list ascii) :
  existsb (fun a => Ascii.eqb a slash) l1 = false ->
  take_until_slash (app l1 l2) = app l1 (take_until_slash l2).
Proof.
  induction l1 as [|a l1 IH]; intros H; simpl in *; [reflexivity|].
  apply orb_false_iff in H as [H1 H2]. rewrite H1. now rewrite IH.
Qed.

Lemma existsb_rev {A} (f : A -> bool) (l : list A) : existsb f (rev l) = existsb f l.
Proof.
  induction l as [|a l IH]; simpl; [reflexivity|].
  rewrite existsb_app, IH. simpl. now rewrite orb_false_r, orb_comm.
Qed.

(** [path.basename(p + "." + f)] when [f] holds no separator: the last
    segment of [p], then ["." + f] *)
Lemma basename_dot_last (p f : string) :
  has_char slash f = false ->
  exists q, basename (p ++ String dot f) = q ++ String dot f.
Proof.
  intros Hf. unfold basename.
  rewrite list_ascii_of_string_app. simpl.
  rewrite rev_app_distr. simpl. rewrite <- app_assoc. simpl.
  assert (Hd : drop_while_slash (app (rev (list_ascii_of_string f)) (dot :: rev (list_ascii_of_string p)))
               = app (rev (list_ascii_of_string f)) (dot :: rev (list_ascii_of_string p))).
  { destruct (rev (list_ascii_of_string f)) as [|a l] eqn:E; simpl; [reflexivity|].
    assert (Ha : Ascii.eqb a slash = false).
    { rewrite has_char_list in Hf. rewrite <- existsb_rev, E in Hf. simpl in Hf.
      now apply orb_false_iff in Hf as [Hf _]. }
    now rewrite Ha. }
  rewrite Hd, take_until_slash_app.
  2:{ rewrite existsb_rev. now rewrite <- has_char_list. }
  simpl. rewrite rev_app_distr, rev_involutive. simpl.
  exists (string_of_list_ascii (rev (take_until_slash (rev (list_ascii_of_string p))))).
  rewrite <- app_assoc. simpl. rewrite string_of_list_ascii_app. simpl.
  now rewrite string_of_list_ascii_of_string.
Qed.

Lemma substring_skip_add (p s : string) (k m : nat) :
  String.substring (String.length p + k) m (p ++ s) = String.substring k m s.
Proof. induction p as [|a p IH]; simpl; [reflexivity | exact IH]. Qed.

Lemma existsb_drop_while_slash (g : ascii -> bool) (l : list ascii) :
  existsb g l = false -> existsb g (drop_while_slash l) = false.
Proof.
  induction l as [|a l IH]; intros H; simpl in *; [reflexivity|].
  apply orb_false_iff in H as [H1 H2].
  destruct (Ascii.eqb a slash); [now apply IH | simpl; now rewrite H1, H2].
Qed.

Lemma existsb_take_until_slash (g : ascii -> bool) (l : list ascii) :
  existsb g l = false -> existsb g (take_until_slash l) = false.
Proof.
  induction l as [|a l IH]; intros H; simpl in *; [reflexivity|].
  apply orb_false_iff in H as [H1 H2].
  destruct (Ascii.eqb a slash); [reflexivity | simpl; now rewrite H1, IH].
Qed.

Lemma has_char_basename (c : ascii) (h : string) :
  has_char c h = false -> has_char c (basename h) = false.
Proof.
  intros H. unfold basename. rewrite has_char_list, list_ascii_of_string_of_list_ascii.
  rewrite existsb_rev. apply existsb_take_until_slash, existsb_drop_while_slash.
  rewrite existsb_rev. now rewrite <- has_char_list.
Qed.

Lemma handlerModulePath_last (p f : string) :
  has_char dot f = false -> handlerModulePath (p ++ String dot f) = p.
Proof.
  intros H. unfold handlerModulePath. rewrite lastIndexOf_dot_last by exact H.
  rewrite substr_prefix by (rewrite length_app; lia).
  apply substring_prefix.
Qed.

Lemma handlerFuncName_last (p f : string) :
  has_char dot f = false -> has_char slash f = false ->
  handlerFuncName (p ++ String dot f) = f.
Proof.
  intros Hd Hs. unfold handlerFuncName.
  destruct (basename_dot_last p f Hs) as [q Hq]. rewrite Hq.
  rewrite lastIndexOf_dot_last by exact Hd.
  replace (Z.of_nat (String.length q) + 1)%Z with (Z.of_nat (String.length q + 1)) by lia.
  rewrite substr_suffix by (rewrite length_app; simpl; lia).
  rewrite substring_skip_add. rewrite length_app. simpl.
  replace (String.length q + S (String.length f) - (String.length q + 1))
    with (String.length f) by lia.
  apply substring_all.
Qed.

Lemma handlerModulePath_nodot (h : string) :
  has_char dot h = false -> handlerModulePath h = "".
Proof.
  intros H. unfold handlerModulePath. rewrite lastIndexOf_absent by exact H.
  unfold substr. simpl.
  replace (Z.to_nat _) with 0 by lia. now destruct h.
Qed.

Lemma handlerFuncName_nodot (h : string) :
  has_char dot h = false -> handlerFuncName h = basename h.
Proof.
  intros H. unfold handlerFuncName.
  rewrite lastIndexOf_absent by (now apply has_char_basename).
  change (-1 + 1)%Z with (Z.of_nat 0).
  rewrite substr_suffix by lia. rewrite Nat.sub_0_r. apply substring_all.
Qed.

(** ** Examples on the source's own comments and tests *)

Example parse_ex1 : handlerModulePath "functions/hello.world.handler" = "functions/hello.world"
  /\ handlerFuncName "functions/hello.world.handler" = "handler".
Proof. split; reflexivity. Qed.

Example parse_ex2 : handlerModulePath "foo.bar/zoo" = "foo" /\ handlerFuncName "foo.bar/zoo" = "zoo".
Proof. split; reflexivity. Qed.

Example parse_ex3 : pythonHandlerModulePath "foo.bar/zoo.handler" = "foo.bar.zoo".
Proof. reflexivity. Qed.

Example path_ex1 : path_join ["/svc"; "_lumigo"] = "/svc/_lumigo"
  /\ path_join ["/svc/_lumigo"; "hello.js"] = "/svc/_lumigo/hello.js"
  /\ relative "/" "/svc" "/svc/_lumigo/hello.js" = "_lumigo/hello.js"
  /\ dirname "functions/hello.world.handler" = "functions"
  /\ dirname "hello.handler" = "."
  /\ dirname "/a" = "/" /\ dirname "a//b" = "a/"
  /\ path_join ["."; "requirements.txt"] = "requirements.txt"
  /\ normalize "a/../../b/" = "../b/"
  /\ basename "a/b.c//" = "b.c".
Proof. vm_compute. repeat split. Qed.

(** ** Running the plugin monad step by step *)

Lemma bind_ok {A B} (m : M A) (k : A -> M B) e s a s' :
  m e s = (Ok a, s') -> bind m k e s = k a e s'.
Proof. intros H. unfold bind. now rewrite H. Qed.

Lemma bind_err {A B} (m : M A) (k : A -> M B) e s msg s' :
  m e s = (Err msg, s') -> bind m k e s = (Err msg, s').
Proof. intros H. unfold bind. now rewrite H. Qed.

Lemma bind_assoc {A B C} (m : M A) (f : A -> M B) (g : B -> M C) e s :
  bind (bind m f) g e s = bind m (fun x => bind (f x) g) e s.
Proof. unfold bind. now destruct (m e s) as [[a|msg] s']. Qed.

Lemma bind_ret {A B} (a : A) (k : A -> M B) e s : bind (ret a) k e s = k a e s.
Proof. reflexivity. Qed.
Lemma bind_ask {A B} (f : Env -> A) (k : A -> M B) e s : bind (ask f) k e s = k (f e) e s.
Proof. reflexivity. Qed.
Lemma bind_gets {A B} (f : St -> A) (k : A -> M B) e s : bind (gets f) k e s = k (f s) e s.
Proof. reflexivity. Qed.
Lemma bind_modify {B} (f : St -> St) (k : unit -> M B) e s :
  bind (modify f) k e s = k tt e (f s).
Proof. reflexivity. Qed.
Lemma bind_throw {A B} (msg : string) (k : A -> M B) e s : bind (throw msg) k e s = (Err msg, s).
Proof. reflexivity. Qed.
Lemma bind_log {B} (m : string) (k : unit -> M B) e s :
  bind (log m) k e s = k tt e (add_logged ("serverless-lumigo: " ++ m) s).
Proof. reflexivity. Qed.

Ltac mstep :=
  repeat (rewrite ?bind_assoc, ?bind_ret, ?bind_ask, ?bind_gets, ?bind_modify, ?bind_throw, ?bind_log;
          cbv beta iota zeta).

(** ** Frame lemmas for the plugin monad *)

Section Preservation.
Variable P : St -> Prop.

Lemma pres_ret {A} (a : A) : preserves P (ret a).
Proof. intros e s H. exact H. Qed.

Lemma pres_throw {A} (msg : string) : preserves P (@throw A msg).
Proof. intros e s H. exact H. Qed.

Lemma pres_ask {A} (f : Env -> A) : preserves P (ask f).
Proof. intros e s H. exact H. Qed.

Lemma pres_gets {A} (f : St -> A) : preserves P (gets f).
Proof. intros e s H. exact H. Qed.

Lemma pres_modify (f : St -> St) : (forall s, P s -> P (f s)) -> preserves P (modify f).
Proof. intros Hf e s H. now apply Hf. Qed.

Lemma pres_bind {A B} (m : M A) (k : A -> M B) :
  preserves P m -> (forall a, preserves P (k a)) -> preserves P (bind m k).
Proof.
  intros Hm Hk e s H. unfold bind.
  specialize (Hm e s H). destruct (m e s) as [[a|msg] s']; simpl in *; [now apply Hk | exact Hm].
Qed.

Lemma pres_for_each {A} (f : A -> M unit) (l : list A) :
  (forall x, In x l -> preserves P (f x)) -> preserves P (for_each f l).
Proof.
  induction l as [|x l IH]; intros H; simpl; [apply pres_ret|].
  apply pres_bind; [apply H; now left | intros _; apply IH; intros y Hy; apply H; now right].
Qed.

Hypothesis H_log : forall m s, P s -> P (add_logged m s).
Hypothesis H_memo : forall b s, P s -> P (set_memo b s).
Hypothesis H_write : forall w s, P s -> P (add_written w s).
Hypothesis H_exec : forall c s, P s -> P (add_executed c s).
Hypothesis H_remove : forall p s, P s -> P (add_removed p s).

Ltac pres :=
  repeat first
    [ apply pres_ret | apply pres_throw | apply pres_ask | apply pres_gets
    | apply pres_bind; intros
    | apply pres_modify; intros; auto
    | match goal with
      | |- preserves _ (match ?x with _ => _ end) => destruct x
      end ].

Lemma pres_log (m : string) : preserves P (log m).
Proof. unfold log. pres. Qed.

Lemma pres_getFunctionsToWrap (names : option (list string)) :
  preserves P (getFunctionsToWrap names).
Proof. unfold getFunctionsToWrap. pres; apply pres_log. Qed.

Lemma pres_isNodeTracerInstalled : preserves P isNodeTracerInstalled.
Proof. unfold isNodeTracerInstalled, isLumigoNodejsInstalled. pres. Qed.

Lemma pres_nodePackageManager : preserves P nodePackageManager.
Proof. unfold nodePackageManager. pres. Qed.

Lemma pres_installLumigoNodejs : preserves P installLumigoNodejs.
Proof.
  unfold installLumigoNodejs, execSync.
  pres; auto using pres_isNodeTracerInstalled, pres_log, pres_nodePackageManager.
Qed.

Lemma pres_uninstallLumigoNodejs : preserves P uninstallLumigoNodejs.
Proof.
  unfold uninstallLumigoNodejs, execSync.
  pres; auto using pres_isNodeTracerInstalled, pres_log, pres_nodePackageManager.
Qed.

Lemma pres_ensureLumigoPythonIsInstalled : preserves P ensureLumigoPythonIsInstalled.
Proof.
  unfold ensureLumigoPythonIsInstalled.
  pres; auto using pres_log, pres_getFunctionsToWrap.
  apply pres_for_each. intros x _. unfold ensureTracerInstalled. pres.
Qed.

Lemma pres_getNodeTracerParameters (tok edge : option string) :
  preserves P (getNodeTracerParameters tok edge).
Proof. unfold getNodeTracerParameters. pres. Qed.

Lemma pres_createWrappedNodejsFunction (f : Target) (tok edge : option string) :
  preserves P (createWrappedNodejsFunction f tok edge).
Proof.
  unfold createWrappedNodejsFunction, outputFile.
  pres; auto using pres_getNodeTracerParameters.
Qed.

Lemma pres_createWrappedPythonFunction (f : Target) (t : string) :
  preserves P (createWrappedPythonFunction f t).
Proof. unfold createWrappedPythonFunction, outputFile. pres. Qed.

Lemma pres_cleanFolder : preserves P cleanFolder.
Proof. unfold cleanFolder, fs_remove. pres. Qed.
End Preservation.

(** ** What a wrap pass may change *)

Lemma set_handler_decl_twice (h h' : string) (d : FunctionDecl) :
  set_handler_decl h (set_handler_decl h' d) = set_handler_decl h d.
Proof. reflexivity. Qed.

Lemma set_handler_decl_same (d : FunctionDecl) : set_handler_decl (handler d) d = d.
Proof. now destruct d. Qed.

Lemma frame_refl (E : list string) (s : St) : frame E (functions s) (package s) s.
Proof.
  split; [|reflexivity].
  induction (functions s) as [|[k d] fs IH]; constructor; [|exact IH].
  unfold fn_frame; simpl. split; [reflexivity|split; [now rewrite set_handler_decl_same | auto]].
Qed.

Section FrameOps.
Variables (E : list string) (f0 : list (string * FunctionDecl)) (p0 : option Package).

Lemma frame_log m s : frame E f0 p0 s -> frame E f0 p0 (add_logged m s).
Proof. now unfold frame. Qed.
Lemma frame_memo b s : frame E f0 p0 s -> frame E f0 p0 (set_memo b s).
Proof. now unfold frame. Qed.
Lemma frame_write w s : frame E f0 p0 s -> frame E f0 p0 (add_written w s).
Proof. now unfold frame. Qed.
Lemma frame_exec c s : frame E f0 p0 s -> frame E f0 p0 (add_executed c s).
Proof. now unfold frame. Qed.
Lemma frame_remove r s : frame E f0 p0 s -> frame E f0 p0 (add_removed r s).
Proof. now unfold frame. Qed.

Lemma frame_setHandler (k h : string) :
  In k E -> preserves (frame E f0 p0) (setHandler k h).
Proof.
  intros Hk e s [Hf Hp]. split; [|exact Hp]. simpl.
  clear Hp. induction Hf as [|[k0 d0] [k1 d1] f0' f1' Hx Hf IH]; simpl; constructor; auto.
  destruct Hx as (H1 & H2 & H3); simpl in *. subst k1.
  destruct (String.eqb k0 k) eqn:Ek; unfold fn_frame; simpl; [|auto].
  apply String.eqb_eq in Ek. subst k0.
  repeat split; [rewrite H2; reflexivity | intros Hn; contradiction].
Qed.
End FrameOps.

Create HintDb frame.
Global Hint Resolve frame_log frame_memo frame_write frame_exec frame_remove : frame.

Lemma getFunctionsToWrap_ok (names : option (list string)) (e : Env) (s : St) :
  exists fam ts s', getFunctionsToWrap names e s = (Ok (fam, ts), s') /\
    functions s' = functions s /\ package s' = package s /\ written s' = written s /\
    executed s' = executed s /\ removed s' = removed s /\
    isNodeTracerInstalled_memo s' = isNodeTracerInstalled_memo s.
Proof.
  unfold getFunctionsToWrap, getAllFunctions, bind, gets, ask, ret, log, modify; simpl.
  destruct (startsWith (provider_runtime e) "nodejs"); [eauto 10|].
  destruct (startsWith (provider_runtime e) "python3"); eauto 10.
Qed.

Lemma wrap_frame (names : option (list string)) (e : Env) (st : St) :
  let st' := snd (wrapFunctions names e st) in
  Forall2 (fn_frame (eligible names e st)) (functions st) (functions st') /\
  (package st' = package st \/
   exists p, package st = Some p /\ package st' = Some (with_lumigo_include p)).
Proof.
  unfold eligible.
  destruct (getFunctionsToWrap_ok names e st) as (fam & ts & s1 & Hg & Hf1 & Hp1 & _).
  rewrite Hg. cbv zeta. unfold wrapFunctions. rewrite (bind_ok _ _ _ _ _ _ Hg). mstep.
  set (E := map localName ts).
  assert (Hs : frame E (functions st) (package st) (add_logged ("serverless-lumigo: " ++
             ("there are " ++ nat_to_string (length ts) ++ " function(s) to wrap...")) s1)).
  { apply frame_log. rewrite <- Hf1, <- Hp1. apply frame_refl. }
  revert Hs. generalize (add_logged ("serverless-lumigo: " ++
             ("there are " ++ nat_to_string (length ts) ++ " function(s) to wrap...")) s1).
  intros s Hs.
  destruct (Nat.eqb (length ts) 0); [destruct Hs; simpl; auto|].
  mstep. destruct (token (lumigo e)) as [t|]; mstep; [|destruct Hs; simpl; auto].
  set (branch := match fam with Nodejs => _ | Python => _ | Unsupported => _ end).
  assert (Hb : preserves (frame E (functions st) (package st)) branch).
  { subst branch. destruct fam.
    - apply pres_bind; [apply pres_installLumigoNodejs; auto with frame|intros _].
      apply pres_for_each. intros x Hx.
      apply pres_bind; [apply pres_createWrappedNodejsFunction; auto with frame|intros h].
      apply frame_setHandler. now apply in_map.
    - apply pres_bind; [apply pres_ensureLumigoPythonIsInstalled; auto with frame|intros _].
      apply pres_for_each. intros x Hx.
      apply pres_bind; [apply pres_createWrappedPythonFunction; auto with frame|intros h].
      apply frame_setHandler. now apply in_map.
    - apply pres_ret. }
  specialize (Hb e s Hs).
  destruct (branch e s) as [[u|msg] s2] eqn:Eb; simpl in Hb.
  - rewrite (bind_ok _ _ _ _ _ _ Eb). destruct Hb as [Hb1 Hb2].
    unfold includeLumigoFolder. mstep. rewrite Hb2.
    destruct (package st) as [p|]; mstep; simpl; [|auto].
    split; [exact Hb1|right; now exists p].
  - rewrite (bind_err _ _ _ _ _ _ Eb). destruct Hb; simpl; auto.
Qed.

Lemma str_app_assoc (a b c : string) : (a ++ b) ++ c = a ++ (b ++ c).
Proof. induction a as [|x a IH]; simpl; [reflexivity | now rewrite IH]. Qed.

Lemma str_app_nil (a : string) : a ++ "" = a.
Proof. induction a as [|x a IH]; simpl; [reflexivity | now rewrite IH]. Qed.

Lemma lookup_fn_in (n : string) (fs : list (string * FunctionDecl)) :
  In n (map fst fs) -> exists d, lookup_fn n fs = Some d.
Proof.
  induction fs as [|[k d] fs IH]; simpl; [tauto|].
  intros [Hk|Hn]; destruct (String.eqb k n) eqn:E; eauto.
  apply String.eqb_neq in E. contradiction.
Qed.

Lemma targets_names (fs : list (string * FunctionDecl)) (l : list string) :
  (forall n, In n l -> In n (map fst fs)) ->
  map localName (flat_map (fun n => match lookup_fn n fs with
                                    | Some d => [mkTarget n d]
                                    | None => []
                                    end) l) = l.
Proof.
  induction l as [|n l IH]; intros H; simpl; [reflexivity|].
  destruct (lookup_fn_in n fs (H n (or_introl eq_refl))) as [d Hd]. rewrite Hd. simpl.
  f_equal. apply IH. intros m Hm. apply H. now right.
Qed.

(** the eligible set: the declared functions named by the filter (all of
    them without one), under a supported runtime family only *)
Lemma eligible_spec (names : option (list string)) (e : Env) (st : St) :
  eligible names e st =
  if startsWith (provider_runtime e) "nodejs" || startsWith (provider_runtime e) "python3"
  then filter (arr_includes (match names with Some l => l | None => map fst (functions st) end))
              (map fst (functions st))
  else [].
Proof.
  unfold eligible, getFunctionsToWrap, getAllFunctions. mstep.
  assert (Ht := targets_names (functions st)
    (filter (arr_includes (match names with Some l => l | None => map fst (functions st) end))
            (map fst (functions st)))).
  destruct (startsWith (provider_runtime e) "nodejs"); mstep; cbn [fst orb].
  { apply Ht. intros n Hn; apply filter_In in Hn; tauto. }
  destruct (startsWith (provider_runtime e) "python3"); mstep; cbn [fst orb]; [|reflexivity].
  apply Ht. intros n Hn; apply filter_In in Hn; tauto.
Qed.

Lemma getFunctionsToWrap_eligible (names : option (list string)) (e : Env) (st : St) fam ts s1 :
  getFunctionsToWrap names e st = (Ok (fam, ts), s1) -> map localName ts = eligible names e st.
Proof. intros H. unfold eligible. now rewrite H. Qed.

Lemma arr_includes_In (xs : list string) (x : string) : arr_includes xs x = true -> In x xs.
Proof.
  unfold arr_includes. intros H. apply existsb_exists in H as [y [Hy E]].
  apply String.eqb_eq in E. now subst.
Qed.

Lemma filter_none_declared (names keys : list string) :
  (forall n, In n names -> ~ In n keys) -> filter (arr_includes names) keys = [].
Proof.
  intros H. induction keys as [|k keys IH]; simpl; [reflexivity|].
  destruct (arr_includes names k) eqn:Ek.
  - apply arr_includes_In in Ek. exfalso. apply (H k Ek). now left.
  - apply IH. intros n Hn Hk. apply (H n Hn). now right.
Qed.

(** ** Lemmas on [path.join] and [path.relative] *)

Lemma split_slash_nonempty (s : string) : split_slash s <> [].
Proof.
  destruct s as [|a s]; simpl; [discriminate|].
  destruct (Ascii.eqb a slash); [discriminate|]. destruct (split_slash s); discriminate.
Qed.

Lemma split_slash_app_slash (a b : string) :
  split_slash (a ++ String slash b) = app (split_slash a) (split_slash b).
Proof.
  induction a as [|c a IH]; simpl; [reflexivity|].
  rewrite IH. destruct (Ascii.eqb c slash); [reflexivity|].
  destruct (split_slash a) as [|x r] eqn:E; [now apply split_slash_nonempty in E|reflexivity].
Qed.

Lemma split_slash_plain (s : string) : has_char slash s = false -> split_slash s = [s].
Proof.
  induction s as [|c s IH]; simpl; intros H; [reflexivity|].
  apply orb_false_iff in H as [H1 H2]. rewrite H1, IH by exact H2. reflexivity.
Qed.

Lemma split_slash_join (L : list string) :
  L <> [] -> Forall (fun x => has_char slash x = false) L -> split_slash (join_with "/" L) = L.
Proof.
  induction L as [|x L IH]; intros Hn HF; [contradiction|].
  inversion HF as [|? ? Hx HL]; subst.
  destruct L as [|y L']; [now apply split_slash_plain|].
  change (join_with "/" (x :: y :: L')) with (x ++ String slash (join_with "/" (y :: L'))).
  rewrite split_slash_app_slash, split_slash_plain by exact Hx.
  rewrite IH by (discriminate || exact HL). reflexivity.
Qed.

Lemma split_slash_elems (s : string) : Forall (fun x => has_char slash x = false) (split_slash s).
Proof.
  induction s as [|c s IH]; simpl; [now constructor|].
  destruct (Ascii.eqb c slash) eqn:Ec; [now constructor|].
  destruct (split_slash s) as [|x r]; [constructor; [simpl; now rewrite Ec|constructor]|].
  inversion IH as [|? ? Hx Hr]; subst. constructor; [simpl; now rewrite Ec, Hx|exact Hr].
Qed.

Lemma normalize_segs_app (ab : bool) (acc xs ys : list string) :
  normalize_segs ab acc (app xs ys) = normalize_segs ab (normalize_segs ab acc xs) ys.
Proof.
  revert acc; induction xs as [|x xs IH]; intros acc; simpl; [reflexivity|].
  destruct (String.eqb x "" || String.eqb x "."); [apply IH|].
  destruct (String.eqb x ".."); [destruct acc as [|y acc]; [apply IH|]|apply IH].
  destruct (String.eqb y ".."); apply IH.
Qed.

Lemma plain_seg_eqb (x : string) :
  plain_seg x -> String.eqb x "" = false /\ String.eqb x "." = false /\ String.eqb x ".." = false.
Proof.
  intros (_ & H1 & H2 & H3). repeat split; apply String.eqb_neq; assumption.
Qed.

Lemma normalize_segs_plain (ab : bool) (acc xs : list string) :
  Forall plain_seg xs -> normalize_segs ab acc xs = app (rev xs) acc.
Proof.
  revert acc; induction xs as [|x xs IH]; intros acc HF; simpl; [reflexivity|].
  inversion HF as [|? ? Hx Hxs]; subst.
  destruct (plain_seg_eqb x Hx) as (E1 & E2 & E3). rewrite E1, E2, E3. simpl.
  rewrite IH by exact Hxs. now rewrite <- app_assoc.
Qed.

Lemma normalize_segs_abs_plain (acc segs : list string) :
  Forall plain_seg acc -> Forall (fun x => has_char slash x = false) segs ->
  Forall plain_seg (normalize_segs false acc segs).
Proof.
  revert acc; induction segs as [|x segs IH]; intros acc Ha Hs; simpl; [exact Ha|].
  inversion Hs as [|? ? Hx Hr]; subst.
  destruct (String.eqb x "" || String.eqb x ".") eqn:E1; [now apply IH|].
  destruct (String.eqb x "..") eqn:E2.
  - destruct acc as [|y acc']; [now apply IH|].
    inversion Ha as [|? ? Hy Hacc]; subst.
    destruct (String.eqb y ".."); [now apply IH|now apply IH].
  - apply IH; [|exact Hr]. constructor; [|exact Ha].
    apply orb_false_iff in E1 as [E0 E1].
    repeat split; [exact Hx| apply String.eqb_neq; assumption ..].
Qed.

Lemma Forall_plain_slash_free (l : list string) :
  Forall plain_seg l -> Forall (fun x => has_char slash x = false) l.
Proof. intros H. eapply Forall_impl; [|exact H]. now intros x [Hx _]. Qed.

Lemma nonempty_segs_plain (l : list string) : Forall plain_seg l -> nonempty_segs l = l.
Proof.
  induction l as [|x l IH]; intros H; simpl; [reflexivity|].
  inversion H as [|? ? Hx Hl]; subst. destruct (plain_seg_eqb x Hx) as [E _].
  rewrite E. simpl. now rewrite IH.
Qed.

Lemma nonempty_segs_app (l1 l2 : list string) :
  nonempty_segs (app l1 l2) = app (nonempty_segs l1) (nonempty_segs l2).
Proof. apply filter_app. Qed.

(** the segments of a joined list of plain segments, leading "/" and an
    optional trailing "/" apart *)
Lemma nonempty_segs_join (N : list string) (tail : string) :
  Forall plain_seg N -> (tail = "" \/ tail = "/") ->
  nonempty_segs (split_slash (String slash (join_with "/" N ++ tail))) = N.
Proof.
  intros HN Ht. simpl. change (negb (String.eqb "" "")) with false. cbv iota.
  destruct N as [|x N'].
  - destruct Ht as [-> | ->]; reflexivity.
  - destruct Ht as [-> | ->].
    + rewrite str_app_nil, split_slash_join by (discriminate || now apply Forall_plain_slash_free).
      now apply nonempty_segs_plain.
    + change "/" with (String slash "").
      rewrite split_slash_app_slash, nonempty_segs_app.
      rewrite split_slash_join by (discriminate || now apply Forall_plain_slash_free).
      rewrite nonempty_segs_plain by exact HN. simpl. now rewrite app_nil_r.
Qed.

Lemma abs_segs_plain (p : string) : Forall plain_seg (abs_segs p).
Proof. apply normalize_segs_abs_plain; [constructor|apply split_slash_elems]. Qed.

Lemma normalize_abs (p' : string) :
  exists tail, (tail = "" \/ tail = "/") /\
    normalize (String slash p') = String slash (join_with "/" (rev (abs_segs (String slash p'))) ++ tail).
Proof.
  unfold normalize, abs_segs. cbn [String.eqb first_char_is_slash].
  change (Ascii.eqb slash slash) with true. cbv beta iota zeta.
  rewrite andb_false_r.
  destruct (negb (String.eqb _ "") && last_char_is_slash _); cbv iota.
  - exists "/". split; [now right|reflexivity].
  - exists "". split; [now left|]. now rewrite str_app_nil.
Qed.

Lemma split_slash_lead (X : string) : split_slash (String slash X) = "" :: split_slash X.
Proof. reflexivity. Qed.

Lemma normalize_segs_lead (ab : bool) (acc Y : list string) :
  normalize_segs ab acc ("" :: Y) = normalize_segs ab acc Y.
Proof. reflexivity. Qed.

Lemma abs_segs_normalize (p' : string) :
  abs_segs (normalize (String slash p')) = abs_segs (String slash p').
Proof.
  destruct (normalize_abs p') as (tail & Ht & ->).
  assert (HN := abs_segs_plain (String slash p')).
  set (N := abs_segs (String slash p')) in *.
  unfold abs_segs at 1. simpl. change (Ascii.eqb slash slash) with true. cbv iota.
  assert (HL : normalize_segs false [] (split_slash (join_with "/" (rev N))) = N).
  { destruct N as [|x N'] eqn:EN; [reflexivity|].
    rewrite split_slash_join.
    - rewrite normalize_segs_plain by (now apply Forall_rev). now rewrite rev_involutive, app_nil_r.
    - intros H. apply (f_equal (@length string)) in H. rewrite length_rev in H. simpl in H. lia.
    - apply Forall_rev. now apply Forall_plain_slash_free. }
  destruct Ht as [-> | ->].
  - simpl. now rewrite str_app_nil, HL.
  - replace (join_with "/" (rev N) ++ "/") with (join_with "/" (rev N) ++ String slash "")
      by reflexivity.
    rewrite split_slash_app_slash, normalize_segs_app, HL. reflexivity.
Qed.

Lemma last_char_is_slash_split (q : string) :
  last_char_is_slash q = true -> exists X, q = X ++ String slash "".
Proof.
  unfold last_char_is_slash. intros H.
  destruct (rev (list_ascii_of_string q)) as [|a r] eqn:E; [discriminate|].
  apply Ascii.eqb_eq in H. subst a.
  exists (string_of_list_ascii (rev r)).
  rewrite <- (string_of_list_ascii_of_string q).
  rewrite <- (rev_involutive (list_ascii_of_string q)), E. simpl.
  now rewrite string_of_list_ascii_app.
Qed.

Lemma resolve_segs (wd p' : string) :
  nonempty_segs (split_slash (resolve wd (String slash p'))) = rev (abs_segs (String slash p')).
Proof.
  assert (Hq : nonempty_segs (split_slash (normalize (String slash p'))) = rev (abs_segs (String slash p'))).
  { destruct (normalize_abs p') as (tail & Ht & ->).
    apply nonempty_segs_join; [apply Forall_rev, abs_segs_plain|exact Ht]. }
  unfold resolve. cbn [first_char_is_slash]. change (Ascii.eqb slash slash) with true. cbv iota zeta.
  destruct ((1 <? String.length (normalize (String slash p')))%nat &&
            last_char_is_slash (normalize (String slash p'))) eqn:E; [|exact Hq].
  apply andb_true_iff in E as [_ E]. apply last_char_is_slash_split in E as [X HX].
  rewrite HX in Hq |- *.
  rewrite length_app. simpl.
  replace (Z.of_nat (String.length X + 1) - 1)%Z with (Z.of_nat (String.length X)) by lia.
  rewrite substr_prefix by (rewrite length_app; simpl; lia).
  rewrite substring_prefix.
  rewrite split_slash_app_slash, nonempty_segs_app in Hq. simpl in Hq.
  now rewrite app_nil_r in Hq.
Qed.

Lemma drop_common_prefix (l r : list string) :
  drop_common String.eqb l (app l r) = ([], r).
Proof.
  induction l as [|x l IH]; simpl; [now destruct r|].
  now rewrite String.eqb_refl.
Qed.

Lemma relative_segs (wd a b : string) :
  relative wd a b =
  if String.eqb (resolve wd a) (resolve wd b) then "" else
  let '(fs, ts) := drop_common String.eqb (nonempty_segs (split_slash (resolve wd a)))
                                          (nonempty_segs (split_slash (resolve wd b))) in
  join_with "/" (app (map (fun _ => "..") fs) ts).
Proof. reflexivity. Qed.

Lemma abs_segs_child (X f : string) :
  plain_seg f -> abs_segs (X ++ String slash f) = f :: abs_segs X.
Proof.
  intros Hf. unfold abs_segs.
  rewrite split_slash_app_slash, normalize_segs_app.
  rewrite (split_slash_plain f) by (destruct Hf; assumption).
  rewrite (normalize_segs_plain _ _ [f]) by (constructor; [exact Hf|constructor]). reflexivity.
Qed.

Lemma path_join_two (a b : string) :
  a <> "" -> b <> "" -> path_join [a; b] = normalize (a ++ String slash b).
Proof.
  intros Ha Hb. unfold path_join. simpl.
  apply String.eqb_neq in Ha, Hb. rewrite Ha, Hb. reflexivity.
Qed.

Lemma has_char_app (c : ascii) (a b : string) :
  has_char c (a ++ b) = has_char c a || has_char c b.
Proof. induction a as [|x a IH]; simpl; [reflexivity|]. now rewrite IH, orb_assoc. Qed.

Lemma plain_seg_ext (ln ext : string) :
  has_char slash ln = false -> has_char slash ext = false -> 2 <= String.length ext ->
  plain_seg (ln ++ "." ++ ext).
Proof.
  intros Hl He Hlen.
  assert (L : 3 <= String.length (ln ++ "." ++ ext)) by (rewrite length_app; simpl; lia).
  repeat split.
  - rewrite has_char_app. simpl. now rewrite Hl, He.
  - intros H. rewrite H in L. simpl in L. lia.
  - intros H. rewrite H in L. simpl in L. lia.
  - intros H. rewrite H in L. simpl in L. lia.
Qed.

Lemma relative_grandchild (wd sp' Y g f : string) :
  plain_seg f -> abs_segs (String slash Y) = g :: abs_segs (String slash sp') ->
  relative wd (String slash sp') (path_join [String slash Y; f]) = g ++ "/" ++ f.
Proof.
  intros Hf HY.
  rewrite (path_join_two (String slash Y) f) by (discriminate || (destruct Hf as (_ & H' & _); exact H')).
  change (String slash Y ++ String slash f) with (String slash (Y ++ String slash f)).
  assert (Hseg : nonempty_segs (split_slash (resolve wd (normalize (String slash (Y ++ String slash f))))) =
                 app (rev (abs_segs (String slash sp'))) [g; f]).
  { destruct (normalize_abs (Y ++ String slash f)) as (t2 & _ & Hn2).
    rewrite Hn2, resolve_segs, <- Hn2, abs_segs_normalize.
    change (String slash (Y ++ String slash f)) with (String slash Y ++ String slash f).
    rewrite abs_segs_child, HY by exact Hf. simpl. now rewrite <- app_assoc. }
  rewrite relative_segs, Hseg, resolve_segs.
  destruct (String.eqb _ _) eqn:E.
  - apply String.eqb_eq in E.
    assert (Hc := f_equal (fun q => nonempty_segs (split_slash q)) E). cbv beta in Hc.
    rewrite Hseg, resolve_segs in Hc.
    apply (f_equal (@length string)) in Hc. rewrite List.length_app in Hc. simpl in Hc. lia.
  - rewrite drop_common_prefix. reflexivity.
Qed.
(** the artifact [path.join(folderPath, fileName)], seen from the service
    root by [path.relative], is ["_lumigo/" + fileName] *)
Lemma artifact_relative (wd sp' ln ext : string) :
  has_char slash ln = false -> has_char slash ext = false -> 2 <= String.length ext ->
  relative wd (String slash sp')
    (path_join [path_join [String slash sp'; "_lumigo"]; ln ++ "." ++ ext]) =
  "_lumigo/" ++ ln ++ "." ++ ext.
Proof.
  intros Hl He Hlen.
  assert (Hf : plain_seg (ln ++ "." ++ ext)) by now apply plain_seg_ext.
  rewrite (path_join_two (String slash sp') "_lumigo") by discriminate.
  change (String slash sp' ++ String slash "_lumigo") with (String slash (sp' ++ String slash "_lumigo")).
  destruct (normalize_abs (sp' ++ String slash "_lumigo")) as (t1 & _ & Hn1).
  rewrite Hn1. apply (relative_grandchild wd sp' _ "_lumigo"); [exact Hf|].
  rewrite <- Hn1, abs_segs_normalize.
  change (String slash (sp' ++ String slash "_lumigo")) with (String slash sp' ++ String slash "_lumigo").
  apply abs_segs_child. repeat split; discriminate.
Qed.

(** ** Running one wrap pass *)

Lemma prefix_app (t b : string) : String.prefix t (t ++ b) = true.
Proof. induction t as [|a t IH]; simpl; [now destruct b|]. destruct (ascii_dec a a); [exact IH|contradiction]. Qed.

Lemma index_prefix (t s : string) : String.prefix t s = true -> String.index 0 t s = Some 0.
Proof.
  intros H. destruct s as [|b s']; [destruct t; [reflexivity|discriminate]|].
  change (String.index 0 t (String b s')) with
    (if String.prefix t (String b s') then Some 0
     else match String.index 0 t s' with Some n => Some (S n) | None => None end).
  now rewrite H.
Qed.

Lemma includes_app (t a b : string) : includes t (a ++ t ++ b) = true.
Proof.
  unfold includes. induction a as [|c a IH].
  - simpl. now rewrite index_prefix by apply prefix_app.
  - change ((String c a) ++ t ++ b) with (String c (a ++ t ++ b)).
    change (String.index 0 t (String c (a ++ t ++ b))) with
      (if String.prefix t (String c (a ++ t ++ b)) then Some 0
       else match String.index 0 t (a ++ t ++ b) with Some n => Some (S n) | None => None end).
    destruct (String.prefix t (String c (a ++ t ++ b))); [reflexivity|].
    destruct (String.index 0 t (a ++ t ++ b)); [reflexivity|discriminate].
Qed.

(** one function of the nodejs loop, lines 86-90 *)
Lemma createWrappedNodejsFunction_run (f : Target) (t : string) (edge : option string) (e : Env) (s : St) :
  let fp := path_join [folderPath e; localName f ++ ".js"] in
  createWrappedNodejsFunction f (Some t) edge e s =
  (Ok (tracedHandler (relative (cwd e) (servicePath e) fp) (handlerFuncName (handler (decl f)))),
   add_written (fp, nodejsWrapper
                      (join_with "," (app ["token: '" ++ t ++ "'"]
                                      (match edge with
                                       | Some x => if String.eqb x "" then [] else ["edgeHost: '" ++ x ++ "'"]
                                       | None => []
                                       end)))
                      (handlerModulePath (handler (decl f))) (handlerFuncName (handler (decl f)))) s).
Proof. reflexivity. Qed.

Lemma createWrappedPythonFunction_run (f : Target) (t : string) (e : Env) (s : St) :
  let fp := path_join [folderPath e; localName f ++ ".py"] in
  createWrappedPythonFunction f t e s =
  (Ok (tracedHandler (relative (cwd e) (servicePath e) fp) (handlerFuncName (handler (decl f)))),
   add_written (fp, pythonWrapper t (pythonHandlerModulePath (handler (decl f)))
                                    (handlerFuncName (handler (decl f)))) s).
Proof. reflexivity. Qed.

(** the loops of lines 85-96 and 100-111 write one file per function and
    never fail once the wrapper itself does not *)
Lemma wrap_loop_written (ext : string) (body : Target -> M string) (ts : list Target) (e : Env) (s : St) :
  (forall f s0, exists h c, body f e s0 = (Ok h, add_written (path_join [folderPath e; localName f ++ ext], c) s0)) ->
  exists s', for_each (fun func => h <- body func ;; setHandler (localName func) h) ts e s = (Ok tt, s') /\
    map fst (written s') = app (map fst (written s)) (map (fun f => path_join [folderPath e; localName f ++ ext]) ts) /\
    executed s' = executed s /\ removed s' = removed s /\
    isNodeTracerInstalled_memo s' = isNodeTracerInstalled_memo s.
Proof.
  intros Hb. revert s. induction ts as [|f ts IH]; intros s; simpl.
  - exists s. rewrite app_nil_r. auto.
  - destruct (Hb f s) as (h & c & Hf). rewrite bind_assoc, (bind_ok _ _ _ _ _ _ Hf).
    unfold setHandler. rewrite bind_modify. cbv beta.
    destruct (IH (set_functions (map (fun kv => if String.eqb (fst kv) (localName f)
                                                 then (fst kv, set_handler_decl h (snd kv)) else kv)
                                      (functions (add_written (path_join [folderPath e; localName f ++ ext], c) s)))
                                 (add_written (path_join [folderPath e; localName f ++ ext], c) s)))
      as (s' & Hl & Hw & Hx & Hr & Hm).
    exists s'. split; [exact Hl|]. simpl in Hw, Hx, Hr, Hm. rewrite Hw, map_app, <- app_assoc. auto.
Qed.

Lemma getFunctionsToWrap_family (names : option (list string)) (e : Env) (s : St) fam ts s1 :
  getFunctionsToWrap names e s = (Ok (fam, ts), s1) ->
  match fam with
  | Nodejs => startsWith (provider_runtime e) "nodejs" = true
  | Python => startsWith (provider_runtime e) "nodejs" = false /\
              startsWith (provider_runtime e) "python3" = true
  | Unsupported => ts = []
  end.
Proof.
  unfold getFunctionsToWrap, getAllFunctions. mstep.
  destruct (startsWith (provider_runtime e) "nodejs") eqn:E1; mstep;
    [intros H; now inversion H|].
  destruct (startsWith (provider_runtime e) "python3") eqn:E2; mstep; intros H; now inversion H.
Qed.

Lemma includeLumigoFolder_effects (e : Env) (s : St) :
  exists s', includeLumigoFolder e s = (Ok tt, s') /\ functions s' = functions s /\
    written s' = written s /\ executed s' = executed s /\ removed s' = removed s /\
    isNodeTracerInstalled_memo s' = isNodeTracerInstalled_memo s.
Proof.
  unfold includeLumigoFolder. mstep.
  destruct (package s); mstep; eexists; split; [reflexivity| |reflexivity|]; repeat split.
Qed.

Lemma tracedHandler_ext (p ext fn : string) :
  has_char dot ext = false -> tracedHandler (p ++ String dot ext) fn = p ++ "." ++ fn.
Proof.
  intros H. unfold tracedHandler. rewrite lastIndexOf_dot_last by exact H.
  replace (Z.of_nat (String.length p) + 1)%Z with (Z.of_nat (String.length (p ++ "."))) by (rewrite length_app; simpl; lia).
  replace (p ++ String dot ext) with ((p ++ ".") ++ ext) by (rewrite str_app_assoc; reflexivity).
  rewrite substr_prefix by (rewrite !length_app; lia).
  rewrite substring_prefix, str_app_assoc. reflexivity.
Qed.

Lemma nodejsWrapper_shape (params mp fn : string) :
  exists B, nodejsWrapper params mp fn =
    (NL ++ "const tracer = require(" ++ DQ ++ "@lumigo/tracer" ++ DQ ++ ")({" ++ NL ++ TAB) ++ params ++ B.
Proof. unfold nodejsWrapper. eexists. rewrite !str_app_assoc. reflexivity. Qed.

Lemma pythonWrapper_shape (tok mp fn : string) :
  exists B, pythonWrapper tok mp fn =
    (NL ++ "from lumigo_tracer import lumigo_tracer" ++ NL) ++
    ("from " ++ mp ++ " import " ++ fn ++ " as userHandler") ++ B.
Proof. unfold pythonWrapper. eexists. rewrite !str_app_assoc. reflexivity. Qed.

Lemma wrap_written (names : option (list string)) (e : Env) (st : St) :
  fst (wrapFunctions names e st) = Ok tt ->
  map fst (written (snd (wrapFunctions names e st))) =
  app (map fst (written st))
      (map (fun n => path_join [folderPath e; n ++ (if startsWith (provider_runtime e) "nodejs" then ".js" else ".py")])
           (eligible names e st)).
Proof.
  destruct (getFunctionsToWrap_ok names e st) as (fam & ts & s1 & Hg & Hf1 & Hp1 & Hw1 & Hx1 & Hr1 & Hm1).
  rewrite <- (getFunctionsToWrap_eligible _ _ _ _ _ _ Hg), map_map.
  assert (Hfam := getFunctionsToWrap_family _ _ _ _ _ _ Hg).
  unfold wrapFunctions. rewrite (bind_ok _ _ _ _ _ _ Hg). mstep.
  destruct (Nat.eqb (length ts) 0) eqn:El.
  { apply Nat.eqb_eq, length_zero_iff_nil in El. subst ts. simpl. intros _. now rewrite Hw1, app_nil_r. }
  mstep. destruct (token (lumigo e)) as [t|]; mstep; [|intros H; discriminate H].
  set (s2 := add_logged ("serverless-lumigo: " ++
             ("there are " ++ nat_to_string (length ts) ++ " function(s) to wrap...")) s1).
  assert (Hw2 : written s2 = written st) by exact Hw1. clearbody s2.
  destruct fam.
  - rewrite Hfam. mstep.
    assert (Hp := pres_installLumigoNodejs (fun s => written s = written st)
                    (fun _ _ H => H) (fun _ _ H => H) (fun _ _ H => H) e s2 Hw2).
    destruct (installLumigoNodejs e s2) as [[u|msg] s3] eqn:Ei; simpl in Hp.
    + rewrite (bind_ok _ _ _ _ _ _ Ei).
      destruct (wrap_loop_written ".js" (fun func => createWrappedNodejsFunction func (Some t) (edgeHost (lumigo e))) ts e s3)
        as (s4 & Hl & Hw4 & _).
      { intros f s0. do 2 eexists. exact (createWrappedNodejsFunction_run f t _ e s0). }
      rewrite (bind_ok _ _ _ _ _ _ Hl).
      destruct (includeLumigoFolder_effects e s4) as (s5 & Hi & _ & Hw5 & _).
      rewrite Hi. intros _. simpl. now rewrite Hw5, Hw4, Hp.
    + rewrite (bind_err _ _ _ _ _ _ Ei). simpl; intros H; discriminate H.
  - rewrite (proj1 Hfam). mstep.
    assert (Hp := pres_ensureLumigoPythonIsInstalled (fun s => written s = written st)
                    (fun _ _ H => H) e s2 Hw2).
    destruct (ensureLumigoPythonIsInstalled e s2) as [[u|msg] s3] eqn:Ei; simpl in Hp.
    + rewrite (bind_ok _ _ _ _ _ _ Ei).
      destruct (wrap_loop_written ".py" (fun func => createWrappedPythonFunction func t) ts e s3)
        as (s4 & Hl & Hw4 & _).
      { intros f s0. do 2 eexists. exact (createWrappedPythonFunction_run f t e s0). }
      rewrite (bind_ok _ _ _ _ _ _ Hl).
      destruct (includeLumigoFolder_effects e s4) as (s5 & Hi & _ & Hw5 & _).
      rewrite Hi. intros _. simpl. now rewrite Hw5, Hw4, Hp.
    + rewrite (bind_err _ _ _ _ _ _ Ei). simpl; intros H; discriminate H.
  - subst ts. discriminate El.
Qed.

Lemma includes_mid (t a p b : string) : includes t (a ++ (p ++ t) ++ b) = true.
Proof.
  replace (a ++ (p ++ t) ++ b) with ((a ++ p) ++ t ++ b) by (rewrite !str_app_assoc; reflexivity).
  apply includes_app.
Qed.

Lemma fn_frame_fields (E : list string) (kd kd' : string * FunctionDecl) :
  fn_frame E kd kd' ->
  fst kd' = fst kd /\ events (snd kd') = events (snd kd) /\
  fn_runtime (snd kd') = fn_runtime (snd kd) /\ tags (snd kd') = tags (snd kd) /\
  environment (snd kd') = environment (snd kd) /\ layers (snd kd') = layers (snd kd) /\
  lumigo_enabled (snd kd') = lumigo_enabled (snd kd) /\
  (~ In (fst kd) E -> snd kd' = snd kd).
Proof. intros (H1 & H2 & H3). repeat split; try assumption; rewrite H2; reflexivity. Qed.


Section LayersBlind.
Lemma blind_ret {A} (a : A) : layers_blind (ret a).
Proof. intros u e s. reflexivity. Qed.
Lemma blind_throw {A} (msg : string) : layers_blind (@throw A msg).
Proof. intros u e s. reflexivity. Qed.
Lemma blind_gets {A} (f : St -> A) : layers_blind (gets f).
Proof. intros u e s. reflexivity. Qed.
Lemma blind_modify (f : St -> St) : layers_blind (modify f).
Proof. intros u e s. reflexivity. Qed.
Lemma blind_ask {A} (f : Env -> A) :
  (forall u e, f (with_useLayers u e) = f e) -> layers_blind (ask f).
Proof. intros H u e s. unfold ask. now rewrite H. Qed.
Lemma blind_bind {A B} (m : M A) (k : A -> M B) :
  layers_blind m -> (forall a, layers_blind (k a)) -> layers_blind (bind m k).
Proof.
  intros Hm Hk u e s. unfold bind. rewrite Hm.
  destruct (m e s) as [[a|msg] s']; [apply Hk|reflexivity].
Qed.
Lemma blind_for_each {A} (f : A -> M unit) (l : list A) :
  (forall x, layers_blind (f x)) -> layers_blind (for_each f l).
Proof.
  intros H. induction l as [|x l IH]; simpl; [apply blind_ret|].
  apply blind_bind; [apply H|intros _; exact IH].
Qed.
End LayersBlind.

Ltac blind :=
  repeat first
    [ apply blind_ret | apply blind_throw | apply blind_gets | apply blind_modify
    | apply blind_ask; reflexivity
    | apply blind_bind; intros
    | apply blind_for_each; intros
    | match goal with
      | |- layers_blind (match ?x with _ => _ end) => destruct x
      end ].

Lemma blind_wrapFunctions (names : option (list string)) : layers_blind (wrapFunctions names).
Proof.
  unfold wrapFunctions, getFunctionsToWrap, getAllFunctions, log, installLumigoNodejs,
    isNodeTracerInstalled, isLumigoNodejsInstalled, nodePackageManager, execSync,
    ensureLumigoPythonIsInstalled, ensureTracerInstalled, createWrappedNodejsFunction,
    getNodeTracerParameters, outputFile, createWrappedPythonFunction, setHandler,
    includeLumigoFolder.
  blind.
Qed.

(** ** The claims *)

(** C1 (corrected). The parser takes the module path as everything before
    the last "." of the handler string, but the function name from the last
    path segment ([path.basename]). So the two agree, and the handler is
    rebuilt as [modulePath + "." + funcName], exactly when the last "."
    comes after the last "/". A handler with no "." raises nothing: the
    module path is empty and the function name is the whole last path
    segment. *)
Theorem handler_reference_parse (p f h : string) :
  (has_char dot f = false -> has_char slash f = false ->
   handlerModulePath (p ++ "." ++ f) = p /\
   handlerFuncName (p ++ "." ++ f) = f /\
   handlerModulePath (p ++ "." ++ f) ++ "." ++ handlerFuncName (p ++ "." ++ f) = p ++ "." ++ f) /\
  (has_char dot h = false ->
   handlerModulePath h = "" /\ handlerFuncName h = basename h).
Proof.
  split.
  - intros Hd Hs. change ("." ++ f) with (String dot f).
    rewrite handlerModulePath_last, handlerFuncName_last by assumption. auto.
  - intros Hd. split; [now apply handlerModulePath_nodot | now apply handlerFuncName_nodot].
Qed.

Lemma handler_reference_parse_witness :
  (handlerModulePath ("foo.bar/zoo" ++ "." ++ "handler") = "foo.bar/zoo" /\
   handlerFuncName ("foo.bar/zoo" ++ "." ++ "handler") = "handler" /\
   handlerModulePath ("foo.bar/zoo" ++ "." ++ "handler") ++ "." ++
   handlerFuncName ("foo.bar/zoo" ++ "." ++ "handler") = "foo.bar/zoo" ++ "." ++ "handler") /\
  (handlerModulePath "functions/hello" = "" /\
   handlerFuncName "functions/hello" = basename "functions/hello").
Proof.
  split.
  - apply (proj1 (handler_reference_parse "foo.bar/zoo" "handler" "functions/hello"));
      reflexivity.
  - apply (proj2 (handler_reference_parse "foo.bar/zoo" "handler" "functions/hello"));
      reflexivity.
Defined.

(** C1, counterexample: in ["foo.bar/zoo"] the last "." lies before the last
    "/": the module path is ["foo"], the function name ["zoo"], and they
    rebuild ["foo.zoo"]; and the dot-less handler ["hello"] is wrapped
    without any error. *)
Lemma handler_reference_parse_counterexample :
  handlerModulePath "foo.bar/zoo" = "foo" /\
  handlerFuncName "foo.bar/zoo" = "zoo" /\
  handlerModulePath "foo.bar/zoo" ++ "." ++ handlerFuncName "foo.bar/zoo" <> "foo.bar/zoo" /\
  fst (wrapFunctions None (test_env "nodejs12.x" (test_config (Some "t") None))
         (test_st [("hello", plain_fn "hello")])) = Ok tt.
Proof. vm_compute. repeat split; discriminate. Qed.

(** C2 (corrected). There is no per-function opt-out in this version of the
    plugin: the eligible set is exactly the declared functions named by the
    filter (all of them without one) under a runtime that starts with
    "nodejs" or "python3", and empty otherwise, whatever the function's own
    settings; and a pass that succeeds writes one wrapper file per eligible
    function, [<servicePath>/_lumigo/<name>.js] or [.py]. *)
Theorem wrapFunctions_eligible_written (names : option (list string)) (e : Env) (st : St) :
  eligible names e st =
    (if startsWith (provider_runtime e) "nodejs" || startsWith (provider_runtime e) "python3"
     then filter (arr_includes (match names with Some l => l | None => map fst (functions st) end))
                 (map fst (functions st))
     else []) /\
  (fst (wrapFunctions names e st) = Ok tt ->
   map fst (written (snd (wrapFunctions names e st))) =
   app (map fst (written st))
       (map (fun n => path_join [folderPath e; n ++ (if startsWith (provider_runtime e) "nodejs" then ".js" else ".py")])
            (eligible names e st))).
Proof. split; [apply eligible_spec | apply wrap_written]. Qed.

Lemma wrapFunctions_eligible_written_witness :
  eligible None (test_env "nodejs12.x" (test_config (Some "t") None)) (test_st [("skippy", opt_out_fn)]) = ["skippy"] /\
  map fst (written (snd (wrapFunctions None (test_env "nodejs12.x" (test_config (Some "t") None))
                                           (test_st [("skippy", opt_out_fn)])))) =
  app (map fst (written (test_st [("skippy", opt_out_fn)])))
      (map (fun n => path_join [folderPath (test_env "nodejs12.x" (test_config (Some "t") None));
                                n ++ (if startsWith "nodejs12.x" "nodejs" then ".js" else ".py")])
           (eligible None (test_env "nodejs12.x" (test_config (Some "t") None)) (test_st [("skippy", opt_out_fn)]))).
Proof.
  destruct (wrapFunctions_eligible_written None (test_env "nodejs12.x" (test_config (Some "t") None))
              (test_st [("skippy", opt_out_fn)])) as [H1 H2].
  split; [rewrite H1; reflexivity | apply H2; vm_compute; reflexivity].
Defined.

(** C2, counterexample: a nodejs function whose own settings opt out of
    tracing is wrapped like any other: its wrapper file is written and its
    handler rewritten. *)
Lemma wrapFunctions_opt_out_counterexample :
  let r := wrapFunctions None (test_env "nodejs12.x" (test_config (Some "t") None))
                         (test_st [("skippy", opt_out_fn)]) in
  lumigo_enabled opt_out_fn = Some false /\
  fst r = Ok tt /\
  map fst (written (snd r)) = ["/svc/_lumigo/skippy.js"] /\
  map (fun kd => handler (snd kd)) (functions (snd r)) = ["_lumigo/skippy.skip"].
Proof. vm_compute. repeat split. Qed.

(** C3 (confirmed). Under a provider runtime that starts neither with
    "nodejs" nor with "python3", whatever the configuration and the filter,
    [wrapFunctions] succeeds having only logged that the runtime is
    unsupported and that there are 0 functions to wrap: no file written, no
    command executed, nothing else changed. *)
Theorem wrapFunctions_unsupported_runtime (names : option (list string)) (e : Env) (st : St) :
  startsWith (provider_runtime e) "nodejs" = false ->
  startsWith (provider_runtime e) "python3" = false ->
  wrapFunctions names e st =
  (Ok tt,
   add_logged "serverless-lumigo: there are 0 function(s) to wrap..."
     (add_logged ("serverless-lumigo: unsupported runtime: [" ++ provider_runtime e ++ "], skipped...")
        st)).
Proof.
  intros H1 H2. unfold wrapFunctions, getFunctionsToWrap, getAllFunctions. mstep.
  rewrite H1, H2. mstep. reflexivity.
Qed.

Lemma wrapFunctions_unsupported_runtime_witness :
  wrapFunctions None (test_env "python2.7" (test_config (Some "test-token") (Some "edge-host")))
    (test_st [("hello", plain_fn "hello.world")]) =
  (Ok tt,
   add_logged "serverless-lumigo: there are 0 function(s) to wrap..."
     (add_logged "serverless-lumigo: unsupported runtime: [python2.7], skipped..."
        (test_st [("hello", plain_fn "hello.world")]))).
Proof. apply wrapFunctions_unsupported_runtime; reflexivity. Defined.

(** C4 (corrected). The only token check is [token === undefined]: with no
    token and a non-empty eligible set the pass fails with the "Unable to
    find token" error before any install or file write, having changed
    nothing but the log; an empty token, however, is accepted. *)
Theorem wrapFunctions_missing_token (names : option (list string)) (e : Env) (st : St) :
  token (lumigo e) = None -> eligible names e st <> [] ->
  exists s', wrapFunctions names e st = (Err missing_token_msg, s') /\
    functions s' = functions st /\ package s' = package st /\ written s' = written st /\
    executed s' = executed st /\ removed s' = removed st /\
    isNodeTracerInstalled_memo s' = isNodeTracerInstalled_memo st.
Proof.
  intros Ht Hne.
  destruct (getFunctionsToWrap_ok names e st) as (fam & ts & s1 & Hg & H1 & H2 & H3 & H4 & H5 & H6).
  assert (Hts := getFunctionsToWrap_eligible _ _ _ _ _ _ Hg).
  unfold wrapFunctions. rewrite (bind_ok _ _ _ _ _ _ Hg). mstep.
  destruct ts as [|t0 ts']; [rewrite <- Hts in Hne; contradiction|].
  cbn [length Nat.eqb]. mstep. rewrite Ht.
  eexists. split; [reflexivity|]. simpl. repeat split; assumption.
Qed.

Lemma wrapFunctions_missing_token_witness :
  exists s', wrapFunctions None (test_env "nodejs12.x" (test_config None None))
               (test_st [("hello", plain_fn "hello.world")]) = (Err missing_token_msg, s') /\
    functions s' = functions (test_st [("hello", plain_fn "hello.world")]) /\
    package s' = package (test_st [("hello", plain_fn "hello.world")]) /\
    written s' = written (test_st [("hello", plain_fn "hello.world")]) /\
    executed s' = executed (test_st [("hello", plain_fn "hello.world")]) /\
    removed s' = removed (test_st [("hello", plain_fn "hello.world")]) /\
    isNodeTracerInstalled_memo s' = isNodeTracerInstalled_memo (test_st [("hello", plain_fn "hello.world")]).
Proof.
  apply wrapFunctions_missing_token; [reflexivity | vm_compute; discriminate].
Defined.

(** C4, counterexample: an empty token passes the check; the tracer is
    installed and the wrapper written. *)
Lemma wrapFunctions_empty_token_counterexample :
  let r := wrapFunctions None (test_env "nodejs12.x" (test_config (Some "") None))
                         (test_st [("hello", plain_fn "hello.world")]) in
  fst r = Ok tt /\
  map fst (written (snd r)) = ["/svc/_lumigo/hello.js"] /\
  executed (snd r) = ["npm install --no-save @lumigo/tracer@latest"].
Proof. vm_compute. repeat split. Qed.

(** C5 (confirmed). For a function [ln] (a name with no "/") with handler
    "foo.bar/zoo.handler" under an absolute service path, the python module
    path is "foo.bar.zoo", the wrapper holds the line
    [from foo.bar.zoo import handler as userHandler], it is written to
    [<servicePath>/_lumigo/<ln>.py], which is ["_lumigo/<ln>.py"] relative
    to the service, and the wrap step of lines 100-111 sets the function's
    handler to ["_lumigo/<ln>.handler"]. *)
Theorem python_wrap_foo_bar_zoo (e : Env) (s : St) (sp' ln t : string) (d : FunctionDecl) :
  servicePath e = String slash sp' -> has_char slash ln = false -> handler d = "foo.bar/zoo.handler" ->
  pythonHandlerModulePath (handler d) = "foo.bar.zoo" /\
  includes "from foo.bar.zoo import handler as userHandler"
    (pythonWrapper t (pythonHandlerModulePath (handler d)) (handlerFuncName (handler d))) = true /\
  relative (cwd e) (servicePath e) (path_join [folderPath e; ln ++ ".py"]) = "_lumigo/" ++ ln ++ ".py" /\
  (h <- createWrappedPythonFunction (mkTarget ln d) t ;; setHandler ln h) e s =
  (Ok tt,
   set_functions
     (map (fun kv => if String.eqb (fst kv) ln
                     then (fst kv, set_handler_decl ("_lumigo/" ++ ln ++ ".handler") (snd kv)) else kv)
          (functions s))
     (add_written (path_join [folderPath e; ln ++ ".py"], pythonWrapper t "foo.bar.zoo" "handler") s)).
Proof.
  intros Hsp Hln Hh.
  assert (Hrel : relative (cwd e) (servicePath e) (path_join [folderPath e; ln ++ ".py"]) = "_lumigo/" ++ ln ++ ".py").
  { unfold folderPath. rewrite Hsp. exact (artifact_relative (cwd e) sp' ln "py" Hln eq_refl (le_n 2)). }
  assert (Hmp : pythonHandlerModulePath "foo.bar/zoo.handler" = "foo.bar.zoo") by reflexivity.
  assert (Hfn : handlerFuncName "foo.bar/zoo.handler" = "handler") by reflexivity.
  rewrite Hh, Hmp, Hfn. split; [reflexivity|]. split.
  { destruct (pythonWrapper_shape t "foo.bar.zoo" "handler") as [B HB]. rewrite HB. apply includes_app. }
  split; [exact Hrel|].
  pose proof (createWrappedPythonFunction_run (mkTarget ln d) t e s) as Hr. cbv zeta in Hr.
  cbn [localName decl] in Hr. rewrite Hh, Hrel, Hmp, Hfn in Hr.
  replace ("_lumigo/" ++ ln ++ ".py") with (("_lumigo/" ++ ln) ++ String dot "py") in Hr
    by (rewrite str_app_assoc; reflexivity).
  rewrite tracedHandler_ext in Hr by reflexivity. rewrite str_app_assoc in Hr.
  rewrite (bind_ok _ _ _ _ _ _ Hr). reflexivity.
Qed.

Lemma python_wrap_foo_bar_zoo_witness :
  pythonHandlerModulePath (handler (plain_fn "foo.bar/zoo.handler")) = "foo.bar.zoo" /\
  includes "from foo.bar.zoo import handler as userHandler"
    (pythonWrapper "t" (pythonHandlerModulePath (handler (plain_fn "foo.bar/zoo.handler")))
                       (handlerFuncName (handler (plain_fn "foo.bar/zoo.handler")))) = true /\
  relative (cwd (test_env "python3.8" (test_config (Some "t") None)))
           (servicePath (test_env "python3.8" (test_config (Some "t") None)))
           (path_join [folderPath (test_env "python3.8" (test_config (Some "t") None)); "hello" ++ ".py"]) =
    "_lumigo/" ++ "hello" ++ ".py" /\
  (h <- createWrappedPythonFunction (mkTarget "hello" (plain_fn "foo.bar/zoo.handler")) "t" ;;
   setHandler "hello" h) (test_env "python3.8" (test_config (Some "t") None))
                         (test_st [("hello", plain_fn "foo.bar/zoo.handler")]) =
  (Ok tt,
   set_functions
     (map (fun kv => if String.eqb (fst kv) "hello"
                     then (fst kv, set_handler_decl ("_lumigo/" ++ "hello" ++ ".handler") (snd kv)) else kv)
          (functions (test_st [("hello", plain_fn "foo.bar/zoo.handler")])))
     (add_written (path_join [folderPath (test_env "python3.8" (test_config (Some "t") None)); "hello" ++ ".py"],
                   pythonWrapper "t" "foo.bar.zoo" "handler")
                  (test_st [("hello", plain_fn "foo.bar/zoo.handler")]))).
Proof. apply (python_wrap_foo_bar_zoo _ _ "svc"); reflexivity. Defined.

(** C6 (corrected). The nodejs wrapper's configuration line is
    [token: '<token>'] (with a space after the colon), followed by
    [,edgeHost: '<edgeHost>'] exactly when edgeHost is set and not empty;
    the wrapper written is exactly the template of lines 305-312 around
    that line. *)
Theorem nodejs_wrapper_tracer_parameters (f : Target) (t : string) (edge : option string) (e : Env) (s : St) :
  let params := ("token: '" ++ t ++ "'") ++
                match edge with
                | Some x => if String.eqb x "" then "" else "," ++ ("edgeHost: '" ++ x ++ "'")
                | None => ""
                end in
  let content := nodejsWrapper params (handlerModulePath (handler (decl f)))
                               (handlerFuncName (handler (decl f))) in
  snd (createWrappedNodejsFunction f (Some t) edge e s) =
    add_written (path_join [folderPath e; localName f ++ ".js"], content) s /\
  includes ("token: '" ++ t ++ "'") content = true /\
  match edge with
  | Some x => if String.eqb x "" then True else includes ("edgeHost: '" ++ x ++ "'") content = true
  | None => True
  end.
Proof.
  intros params content.
  assert (Hp : join_with "," (app ["token: '" ++ t ++ "'"]
                 (match edge with
                  | Some x => if String.eqb x "" then [] else ["edgeHost: '" ++ x ++ "'"]
                  | None => []
                  end)) = params).
  { subst params. destruct edge as [x|]; [destruct (String.eqb x "")|]; simpl;
      rewrite ?str_app_nil; reflexivity. }
  destruct (nodejsWrapper_shape params (handlerModulePath (handler (decl f)))
              (handlerFuncName (handler (decl f)))) as [B HB].
  split; [|split].
  - pose proof (createWrappedNodejsFunction_run f t edge e s) as Hr. cbv zeta in Hr.
    rewrite Hr, Hp. reflexivity.
  - subst content. rewrite HB. subst params.
    rewrite (str_app_assoc ("token: '" ++ t ++ "'")). exact (includes_mid _ _ "" _).
  - subst content. rewrite HB. subst params.
    destruct edge as [x|]; [|exact I]. destruct (String.eqb x ""); [exact I|].
    rewrite <- (str_app_assoc ("token: '" ++ t ++ "'") ","). apply includes_mid.
Qed.

(** C6, counterexample: with the token "test-token" the wrapper holds
    [token: 'test-token'], not [token:'test-token']; and an edgeHost set to
    the empty string is configured but not rendered. *)
Lemma nodejs_token_format_counterexample :
  let r := wrapFunctions None (test_env "nodejs12.x" (test_config (Some "test-token") None))
                         (test_st [("hello", plain_fn "hello.world")]) in
  let r' := wrapFunctions None (test_env "nodejs12.x" (test_config (Some "test-token") (Some "")))
                          (test_st [("hello", plain_fn "hello.world")]) in
  map (fun w => includes "token:'test-token'" (snd w)) (written (snd r)) = [false] /\
  map (fun w => includes "token: 'test-token'" (snd w)) (written (snd r)) = [true] /\
  map (fun w => includes "edgeHost" (snd w)) (written (snd r')) = [false].
Proof. vm_compute. repeat split. Qed.

(** C7 (corrected). There is no layer mode in this version: the
    [useLayers] setting is never read, so a pass with it set is the pass
    without it (wrapper files written, tracer installed, handlers pointed at
    the wrappers), and no function's layers or environment change. *)
Theorem wrapFunctions_ignores_useLayers (names : option (list string)) (e : Env) (st : St) (u : option bool) :
  wrapFunctions names (with_useLayers u e) st = wrapFunctions names e st /\
  Forall2 (fun kd kd' => layers (snd kd') = layers (snd kd) /\ environment (snd kd') = environment (snd kd))
          (functions st) (functions (snd (wrapFunctions names (with_useLayers u e) st))).
Proof.
  assert (Hu : wrapFunctions names (with_useLayers u e) st = wrapFunctions names e st)
    by apply blind_wrapFunctions.
  split; [exact Hu|]. rewrite Hu.
  destruct (wrap_frame names e st) as [HF _].
  eapply Forall2_impl; [|exact HF]. intros kd kd' Hk.
  apply fn_frame_fields in Hk. tauto.
Qed.

(** C7, counterexample: with [useLayers] on, a nodejs function still gets a
    wrapper file and the npm install, its handler becomes the wrapper's
    ["_lumigo/hello.world"], and it gets no layer and no environment
    variable. *)
Lemma wrapFunctions_layers_counterexample :
  let r := wrapFunctions None (with_useLayers (Some true) (test_env "nodejs12.x" (test_config (Some "t") None)))
                         (test_st [("hello", plain_fn "hello.world")]) in
  fst r = Ok tt /\
  map fst (written (snd r)) = ["/svc/_lumigo/hello.js"] /\
  executed (snd r) = ["npm install --no-save @lumigo/tracer@latest"] /\
  map (fun kd => (handler (snd kd), layers (snd kd), environment (snd kd))) (functions (snd r)) =
    [("_lumigo/hello.world", [], [])].
Proof. vm_compute. repeat split. Qed.

(** C8 (confirmed). [afterCreateDeploymentArtifacts], the cleanup, changes
    nothing when no function is eligible; otherwise it removes the
    [_lumigo] folder and, for the nodejs family only, runs the uninstall of
    the configured package manager unless the tracer was found installed
    before: by the flag memoised when the wrap pass installed it, or else by
    the project's package.json. *)
Theorem afterCreateDeploymentArtifacts_cleanup (e : Env) (st : St) :
  let s' := snd (afterCreateDeploymentArtifacts e st) in
  let pm := toLowerCase (match nodePackageManager_cfg (lumigo e) with Some m => m | None => "npm" end) in
  let installed_before := match isNodeTracerInstalled_memo st with
                          | Some b => b
                          | None => match packageJson e with Some b => b | None => false end
                          end in
  match eligible None e st with
  | [] => removed s' = removed st /\ executed s' = executed st /\ written s' = written st
  | _ :: _ =>
      removed s' = app (removed st) [folderPath e] /\
      executed s' = app (executed st)
        (if startsWith (provider_runtime e) "nodejs" && negb installed_before
         then (if String.eqb pm "npm" then ["npm uninstall @lumigo/tracer"]
               else if String.eqb pm "yarn" then ["yarn remove @lumigo/tracer"] else [])
         else []) /\
      written s' = written st
  end.
Proof.
  intros s' pm ib. subst s'.
  destruct (getFunctionsToWrap_ok None e st) as (fam & ts & s1 & Hg & H1 & H2 & H3 & H4 & H5 & H6).
  rewrite <- (getFunctionsToWrap_eligible _ _ _ _ _ _ Hg).
  assert (Hfam := getFunctionsToWrap_family _ _ _ _ _ _ Hg).
  unfold afterCreateDeploymentArtifacts. rewrite (bind_ok _ _ _ _ _ _ Hg). mstep.
  destruct ts as [|t0 ts'].
  { simpl. repeat split; assumption. }
  cbn [map length Nat.eqb]. unfold cleanFolder, fs_remove. mstep.
  set (s2 := add_removed (folderPath e) s1).
  assert (Hr2 : removed s2 = app (removed st) [folderPath e]) by (simpl; now rewrite H5).
  assert (Hx2 : executed s2 = executed st) by exact H4.
  assert (Hw2 : written s2 = written st) by exact H3.
  assert (Hm2 : isNodeTracerInstalled_memo s2 = isNodeTracerInstalled_memo st) by exact H6.
  clearbody s2.
  destruct fam; cbn iota.
  - rewrite Hfam. cbn [andb].
    unfold uninstallLumigoNodejs, isNodeTracerInstalled, isLumigoNodejsInstalled, nodePackageManager, execSync.
    mstep. rewrite Hm2. subst ib pm.
    destruct (isNodeTracerInstalled_memo st) as [b|].
    + mstep. destruct b; mstep; simpl.
      * rewrite app_nil_r. repeat split; assumption.
      * destruct (String.eqb _ "npm"); [|destruct (String.eqb _ "yarn")]; mstep; simpl;
          rewrite ?app_nil_r; repeat split; congruence.
    + mstep. destruct (match packageJson e with Some b => b | None => false end); mstep; simpl.
      * rewrite app_nil_r. repeat split; assumption.
      * destruct (String.eqb _ "npm"); [|destruct (String.eqb _ "yarn")]; mstep; simpl;
          rewrite ?app_nil_r; repeat split; congruence.
  - rewrite (proj1 Hfam). simpl. rewrite app_nil_r. repeat split; assumption.
  - discriminate Hfam.
Qed.

(** C9 (confirmed). The eligible set of [wrapFunctions(functionNames)] is
    the declared names that the filter lists, in declaration order (empty
    under an unsupported runtime), so filter names that are not declared are
    dropped; a filter of undeclared names only makes the pass return at once
    without error, having changed nothing but the log. *)
Theorem wrapFunctions_unknown_names (names : list string) (e : Env) (st : St) :
  eligible (Some names) e st =
    (if startsWith (provider_runtime e) "nodejs" || startsWith (provider_runtime e) "python3"
     then filter (arr_includes names) (map fst (functions st)) else []) /\
  ((forall n, In n names -> ~ In n (map fst (functions st))) ->
   exists s', wrapFunctions (Some names) e st = (Ok tt, s') /\
     functions s' = functions st /\ package s' = package st /\ written s' = written st /\
     executed s' = executed st /\ removed s' = removed st).
Proof.
  split; [apply eligible_spec|].
  intros Hn.
  destruct (getFunctionsToWrap_ok (Some names) e st) as (fam & ts & s1 & Hg & H1 & H2 & H3 & H4 & H5 & _).
  assert (Hts : ts = []).
  { apply getFunctionsToWrap_eligible in Hg. rewrite eligible_spec in Hg.
    rewrite filter_none_declared in Hg by exact Hn.
    destruct (_ || _), ts; now inversion Hg. }
  subst ts. unfold wrapFunctions. rewrite (bind_ok _ _ _ _ _ _ Hg). mstep. simpl.
  eexists. split; [reflexivity|]. simpl. auto.
Qed.

Lemma wrapFunctions_unknown_names_witness :
  exists s', wrapFunctions (Some ["nope"]) (test_env "nodejs12.x" (test_config None None))
               (test_st [("hello", plain_fn "hello.world")]) = (Ok tt, s') /\
    functions s' = functions (test_st [("hello", plain_fn "hello.world")]) /\
    package s' = package (test_st [("hello", plain_fn "hello.world")]) /\
    written s' = [] /\ executed s' = [] /\ removed s' = [].
Proof.
  apply (proj2 (wrapFunctions_unknown_names ["nope"] (test_env "nodejs12.x" (test_config None None))
                  (test_st [("hello", plain_fn "hello.world")]))).
  intros n Hn. simpl in Hn. destruct Hn as [Hn|[]]. subst n. simpl. intros [H|[]]. discriminate.
Defined.

(** C10 (confirmed). A pass neither adds nor removes nor reorders declared
    functions, keeps every field of every function but the handler, and
    changes the handler only of eligible functions; the service-level
    package object is unchanged or, when it exists, gets "_lumigo/*"
    appended to its include list. *)
Theorem wrapFunctions_only_handlers (names : option (list string)) (e : Env) (st : St) :
  let st' := snd (wrapFunctions names e st) in
  Forall2 (fun kd kd' =>
             fst kd' = fst kd /\ events (snd kd') = events (snd kd) /\
             fn_runtime (snd kd') = fn_runtime (snd kd) /\ tags (snd kd') = tags (snd kd) /\
             environment (snd kd') = environment (snd kd) /\ layers (snd kd') = layers (snd kd) /\
             lumigo_enabled (snd kd') = lumigo_enabled (snd kd) /\
             (~ In (fst kd) (eligible names e st) -> snd kd' = snd kd))
          (functions st) (functions st') /\
  (package st' = package st \/
   exists p, package st = Some p /\ package st' = Some (with_lumigo_include p)).
Proof.
  intros st'. destruct (wrap_frame names e st) as [HF HP].
  split; [|exact HP].
  eapply Forall2_impl; [|exact HF]. intros kd kd' Hk. exact (fn_frame_fields _ _ _ Hk).
Qed.

(** * Further properties of the plugin *)

Lemma set_memo_same (b : bool) (s : St) : isNodeTracerInstalled_memo s = Some b -> set_memo b s = s.
Proof. destruct s; simpl; intros ->; reflexivity. Qed.

Lemma installLumigoNodejs_run (e : Env) (s : St) :
  let installed := match isNodeTracerInstalled_memo s with
                   | Some b => b
                   | None => match packageJson e with Some b => b | None => false end
                   end in
  let pm := toLowerCase (match nodePackageManager_cfg (lumigo e) with Some m => m | None => "npm" end) in
  let s1 := add_logged "serverless-lumigo: installing @lumigo/tracer..." (set_memo installed s) in
  installLumigoNodejs e s =
  if installed then (Ok tt, set_memo installed s)
  else if String.eqb pm "npm" then (Ok tt, add_executed "npm install --no-save @lumigo/tracer@latest" s1)
  else if String.eqb pm "yarn" then (Ok tt, add_executed "yarn add @lumigo/tracer@latest" s1)
  else (Err no_package_manager_msg, s1).
Proof.
  intros installed pm s1. subst s1 installed pm.
  unfold installLumigoNodejs, isNodeTracerInstalled, isLumigoNodejsInstalled, nodePackageManager, execSync.
  mstep. destruct (isNodeTracerInstalled_memo s) as [b|] eqn:Hm; mstep.
  - rewrite (set_memo_same b s Hm).
    destruct b; mstep; [reflexivity|].
    destruct (String.eqb _ "npm"); mstep; [reflexivity|].
    destruct (String.eqb _ "yarn"); mstep; reflexivity.
  - destruct (match packageJson e with Some b => b | None => false end); mstep; [reflexivity|].
    destruct (String.eqb _ "npm"); mstep; [reflexivity|].
    destruct (String.eqb _ "yarn"); mstep; reflexivity.
Qed.

(** X2. [uninstallLumigoNodejs] decides like the install: nothing when
    the tracer counts as installed, otherwise one uninstall command of the
    lower-cased package manager, and an error before any command for a
    manager other than npm or yarn. *)
Theorem uninstallLumigoNodejs_outcome (e : Env) (s : St) :
  let installed := match isNodeTracerInstalled_memo s with
                   | Some b => b
                   | None => match packageJson e with Some b => b | None => false end
                   end in
  let pm := toLowerCase (match nodePackageManager_cfg (lumigo e) with Some m => m | None => "npm" end) in
  let s1 := add_logged "serverless-lumigo: uninstalling @lumigo/tracer..." (set_memo installed s) in
  uninstallLumigoNodejs e s =
  if installed then (Ok tt, set_memo installed s)
  else if String.eqb pm "npm" then (Ok tt, add_executed "npm uninstall @lumigo/tracer" s1)
  else if String.eqb pm "yarn" then (Ok tt, add_executed "yarn remove @lumigo/tracer" s1)
  else (Err no_package_manager_msg, s1).
Proof.
  intros installed pm s1. subst s1 installed pm.
  unfold uninstallLumigoNodejs, isNodeTracerInstalled, isLumigoNodejsInstalled, nodePackageManager, execSync.
  mstep. destruct (isNodeTracerInstalled_memo s) as [b|] eqn:Hm; mstep.
  - rewrite (set_memo_same b s Hm).
    destruct b; mstep; [reflexivity|].
    destruct (String.eqb _ "npm"); mstep; [reflexivity|].
    destruct (String.eqb _ "yarn"); mstep; reflexivity.
  - destruct (match packageJson e with Some b => b | None => false end); mstep; [reflexivity|].
    destruct (String.eqb _ "npm"); mstep; [reflexivity|].
    destruct (String.eqb _ "yarn"); mstep; reflexivity.
Qed.

Lemma wrap_tail (ext : string) (body : Target -> M string) (ts : list Target) (e : Env) (s : St) :
  (forall f s0, exists h c, body f e s0 = (Ok h, add_written (path_join [folderPath e; localName f ++ ext], c) s0)) ->
  exists s', (for_each (fun func => h <- body func ;; setHandler (localName func) h) ts ;;; includeLumigoFolder) e s = (Ok tt, s') /\
    map fst (written s') = app (map fst (written s)) (map (fun f => path_join [folderPath e; localName f ++ ext]) ts) /\
    executed s' = executed s /\ removed s' = removed s /\
    isNodeTracerInstalled_memo s' = isNodeTracerInstalled_memo s.
Proof.
  intros Hb. destruct (wrap_loop_written ext body ts e s Hb) as (s4 & Hl & Hw4 & Hx4 & Hr4 & Hm4).
  rewrite (bind_ok _ _ _ _ _ _ Hl).
  destruct (includeLumigoFolder_effects e s4) as (s5 & Hi & _ & Hw5 & Hx5 & Hr5 & Hm5).
  exists s5. rewrite Hi, Hw5, Hx5, Hr5, Hm5. auto.
Qed.

Lemma nodejs_body (t : string) (edge : option string) (e : Env) :
  forall f s0, exists h c, createWrappedNodejsFunction f (Some t) edge e s0 =
    (Ok h, add_written (path_join [folderPath e; localName f ++ ".js"], c) s0).
Proof. intros f s0. do 2 eexists. exact (createWrappedNodejsFunction_run f t _ e s0). Qed.

Lemma python_body (t : string) (e : Env) :
  forall f s0, exists h c, createWrappedPythonFunction f t e s0 =
    (Ok h, add_written (path_join [folderPath e; localName f ++ ".py"], c) s0).
Proof. intros f s0. do 2 eexists. exact (createWrappedPythonFunction_run f t e s0). Qed.

(** the commands a pass runs, and the memoised "tracer installed" flag it
    leaves *)
Lemma wrap_exec_memo (names : option (list string)) (e : Env) (st : St) :
  let st' := snd (wrapFunctions names e st) in
  let installed := match isNodeTracerInstalled_memo st with
                   | Some b => b
                   | None => match packageJson e with Some b => b | None => false end
                   end in
  let pm := toLowerCase (match nodePackageManager_cfg (lumigo e) with Some m => m | None => "npm" end) in
  let active := startsWith (provider_runtime e) "nodejs" &&
                match eligible names e st with [] => false | _ => true end &&
                match token (lumigo e) with Some _ => true | None => false end in
  executed st' = app (executed st)
    (if active && negb installed
     then (if String.eqb pm "npm" then ["npm install --no-save @lumigo/tracer@latest"]
           else if String.eqb pm "yarn" then ["yarn add @lumigo/tracer@latest"] else [])
     else []) /\
  removed st' = removed st /\
  isNodeTracerInstalled_memo st' = (if active then Some installed else isNodeTracerInstalled_memo st).
Proof.
  intros st' installed pm active. subst st' active.
  destruct (getFunctionsToWrap_ok names e st) as (fam & ts & s1 & Hg & Hf1 & Hp1 & Hw1 & Hx1 & Hr1 & Hm1).
  rewrite <- (getFunctionsToWrap_eligible _ _ _ _ _ _ Hg).
  assert (Hfam := getFunctionsToWrap_family _ _ _ _ _ _ Hg).
  unfold wrapFunctions. rewrite (bind_ok _ _ _ _ _ _ Hg). mstep.
  destruct ts as [|t0 ts'].
  { cbn [map]. rewrite !andb_false_r. simpl. rewrite app_nil_r. auto. }
  cbn [map length Nat.eqb]. mstep.
  match goal with |- context [add_logged ?m s1] => set (s2 := add_logged m s1) in * end.
  assert (Hx2 : executed s2 = executed st) by exact Hx1.
  assert (Hr2 : removed s2 = removed st) by exact Hr1.
  assert (Hm2 : isNodeTracerInstalled_memo s2 = isNodeTracerInstalled_memo st) by exact Hm1.
  clearbody s2.
  destruct (token (lumigo e)) as [t|]; mstep.
  2: { rewrite !andb_false_r. cbv [throw snd]. rewrite app_nil_r. auto. }
  destruct fam.
  - rewrite Hfam. cbn [andb]. mstep.
    pose proof (installLumigoNodejs_run e s2) as Hi. cbv zeta in Hi. rewrite Hm2 in Hi.
    subst installed pm.
    set (ib := match isNodeTracerInstalled_memo st with
               | Some b => b
               | None => match packageJson e with Some b => b | None => false end
               end) in *.
    set (p := toLowerCase (match nodePackageManager_cfg (lumigo e) with Some m => m | None => "npm" end)) in *.
    destruct ib; cbn [negb andb] in *.
    + rewrite (bind_ok _ _ _ _ _ _ Hi).
      match type of Hi with _ = (_, ?s3') => destruct (wrap_tail ".js" (fun f => createWrappedNodejsFunction f (Some t) (edgeHost (lumigo e))) (t0 :: ts') e s3' (nodejs_body t (edgeHost (lumigo e)) e)) as (s5 & Ht & _ & Hx5 & Hr5 & Hm5) end.
      rewrite Ht. simpl. rewrite Hx5, Hr5, Hm5. simpl. rewrite Hx2, Hr2, app_nil_r. auto.
    + destruct (String.eqb p "npm"); [|destruct (String.eqb p "yarn")].
      * rewrite (bind_ok _ _ _ _ _ _ Hi).
        match type of Hi with _ = (_, ?s3') => destruct (wrap_tail ".js" (fun f => createWrappedNodejsFunction f (Some t) (edgeHost (lumigo e))) (t0 :: ts') e s3' (nodejs_body t (edgeHost (lumigo e)) e)) as (s5 & Ht & _ & Hx5 & Hr5 & Hm5) end.
        rewrite Ht. simpl. rewrite Hx5, Hr5, Hm5. simpl. rewrite Hx2, Hr2. auto.
      * rewrite (bind_ok _ _ _ _ _ _ Hi).
        match type of Hi with _ = (_, ?s3') => destruct (wrap_tail ".js" (fun f => createWrappedNodejsFunction f (Some t) (edgeHost (lumigo e))) (t0 :: ts') e s3' (nodejs_body t (edgeHost (lumigo e)) e)) as (s5 & Ht & _ & Hx5 & Hr5 & Hm5) end.
        rewrite Ht. simpl. rewrite Hx5, Hr5, Hm5. simpl. rewrite Hx2, Hr2. auto.
      * rewrite (bind_err _ _ _ _ _ _ Hi). simpl. rewrite Hx2, Hr2, app_nil_r. auto.
  - rewrite (proj1 Hfam). cbn [andb]. mstep.
    assert (Hp := pres_ensureLumigoPythonIsInstalled
                    (fun s => executed s = executed st /\ removed s = removed st /\
                              isNodeTracerInstalled_memo s = isNodeTracerInstalled_memo st)
                    (fun _ _ H => H) e s2 (conj Hx2 (conj Hr2 Hm2))).
    destruct (ensureLumigoPythonIsInstalled e s2) as [[u|msg] s3] eqn:Ei; simpl in Hp.
    + rewrite (bind_ok _ _ _ _ _ _ Ei).
      match type of Ei with _ = (_, ?s3') => destruct (wrap_tail ".py" (fun f => createWrappedPythonFunction f t) (t0 :: ts') e s3' (python_body t e)) as (s5 & Ht & _ & Hx5 & Hr5 & Hm5) end.
      rewrite Ht. simpl. rewrite Hx5, Hr5, Hm5, app_nil_r. exact Hp.
    + rewrite (bind_err _ _ _ _ _ _ Ei). simpl. rewrite app_nil_r. exact Hp.
  - discriminate Hfam.
Qed.

Lemma cleanup_run (e : Env) (st : St) :
  let s' := snd (afterCreateDeploymentArtifacts e st) in
  let pm := toLowerCase (match nodePackageManager_cfg (lumigo e) with Some m => m | None => "npm" end) in
  let installed_before := match isNodeTracerInstalled_memo st with
                          | Some b => b
                          | None => match packageJson e with Some b => b | None => false end
                          end in
  match eligible None e st with
  | [] => removed s' = removed st /\ executed s' = executed st /\ written s' = written st
  | _ :: _ =>
      removed s' = app (removed st) [folderPath e] /\
      executed s' = app (executed st)
        (if startsWith (provider_runtime e) "nodejs" && negb installed_before
         then (if String.eqb pm "npm" then ["npm uninstall @lumigo/tracer"]
               else if String.eqb pm "yarn" then ["yarn remove @lumigo/tracer"] else [])
         else []) /\
      written s' = written st
  end.
Proof.
  intros s' pm ib. subst s'.
  destruct (getFunctionsToWrap_ok None e st) as (fam & ts & s1 & Hg & H1 & H2 & H3 & H4 & H5 & H6).
  rewrite <- (getFunctionsToWrap_eligible _ _ _ _ _ _ Hg).
  assert (Hfam := getFunctionsToWrap_family _ _ _ _ _ _ Hg).
  unfold afterCreateDeploymentArtifacts. rewrite (bind_ok _ _ _ _ _ _ Hg). mstep.
  destruct ts as [|t0 ts'].
  { simpl. repeat split; assumption. }
  cbn [map length Nat.eqb]. unfold cleanFolder, fs_remove. mstep.
  set (s2 := add_removed (folderPath e) s1).
  assert (Hr2 : removed s2 = app (removed st) [folderPath e]) by (simpl; now rewrite H5).
  assert (Hx2 : executed s2 = executed st) by exact H4.
  assert (Hw2 : written s2 = written st) by exact H3.
  assert (Hm2 : isNodeTracerInstalled_memo s2 = isNodeTracerInstalled_memo st) by exact H6.
  clearbody s2.
  destruct fam; cbn iota.
  - rewrite Hfam. cbn [andb].
    unfold uninstallLumigoNodejs, isNodeTracerInstalled, isLumigoNodejsInstalled, nodePackageManager, execSync.
    mstep. rewrite Hm2. subst ib pm.
    destruct (isNodeTracerInstalled_memo st) as [b|].
    + mstep. destruct b; mstep; simpl.
      * rewrite app_nil_r. repeat split; assumption.
      * destruct (String.eqb _ "npm"); [|destruct (String.eqb _ "yarn")]; mstep; simpl;
          rewrite ?app_nil_r; repeat split; congruence.
    + mstep. destruct (match packageJson e with Some b => b | None => false end); mstep; simpl.
      * rewrite app_nil_r. repeat split; assumption.
      * destruct (String.eqb _ "npm"); [|destruct (String.eqb _ "yarn")]; mstep; simpl;
          rewrite ?app_nil_r; repeat split; congruence.
  - rewrite (proj1 Hfam). simpl. rewrite app_nil_r. repeat split; assumption.
  - discriminate Hfam.
Qed.

Lemma frame_keys (E : list string) (f0 f1 : list (string * FunctionDecl)) :
  Forall2 (fn_frame E) f0 f1 -> map fst f1 = map fst f0.
Proof. induction 1 as [|kd kd' f0 f1 [Hk _] _ IH]; simpl; [reflexivity|]. now rewrite Hk, IH. Qed.

(** a pass keeps every function key, so it leaves the eligible set of any
    later pass unchanged *)
Lemma eligible_after_wrap (names names' : option (list string)) (e : Env) (st : St) :
  eligible names' e (snd (wrapFunctions names e st)) = eligible names' e st.
Proof.
  rewrite !eligible_spec.
  destruct (wrap_frame names e st) as [Hf _].
  now rewrite (frame_keys _ _ _ Hf).
Qed.

(** X3. Under a nodejs runtime with a token, the package hook followed by
    the cleanup hook of the same plugin runs the install and the matching
    uninstall command of the package manager (npm or yarn), or none when
    the tracer was already installed or nothing is eligible, and removes
    the _lumigo folder exactly when something is eligible. *)
Theorem nodejs_package_lifecycle (e : Env) (st : St) (t : string) :
  startsWith (provider_runtime e) "nodejs" = true ->
  token (lumigo e) = Some t ->
  let st2 := snd (afterCreateDeploymentArtifacts e (snd (afterPackageInitialize e st))) in
  let installed := match isNodeTracerInstalled_memo st with
                   | Some b => b
                   | None => match packageJson e with Some b => b | None => false end
                   end in
  let pm := toLowerCase (match nodePackageManager_cfg (lumigo e) with Some m => m | None => "npm" end) in
  executed st2 = app (executed st)
    (match eligible None e st with
     | [] => []
     | _ :: _ =>
         if installed then []
         else if String.eqb pm "npm"
         then ["npm install --no-save @lumigo/tracer@latest"; "npm uninstall @lumigo/tracer"]
         else if String.eqb pm "yarn"
         then ["yarn add @lumigo/tracer@latest"; "yarn remove @lumigo/tracer"]
         else []
     end) /\
  removed st2 = app (removed st) (match eligible None e st with [] => [] | _ :: _ => [folderPath e] end).
Proof.
  intros Hn Ht st2 installed pm. subst st2 installed pm. unfold afterPackageInitialize.
  pose proof (wrap_exec_memo None e st) as W. cbv zeta in W. destruct W as (Wx & Wr & Wm).
  pose proof (cleanup_run e (snd (wrapFunctions None e st))) as C. cbv zeta in C.
  rewrite (eligible_after_wrap None None e st) in C.
  rewrite Ht, Hn in Wx, Wm. rewrite Wm, Hn in C.
  set (ib := match isNodeTracerInstalled_memo st with
             | Some b => b
             | None => match packageJson e with Some b => b | None => false end
             end) in *.
  set (p := toLowerCase (match nodePackageManager_cfg (lumigo e) with Some m => m | None => "npm" end)) in *.
  destruct (eligible None e st) as [|x l]; cbn [andb negb] in *.
  - destruct C as (C1 & C2 & _). rewrite C1, C2, Wx, Wr, !app_nil_r. auto.
  - destruct C as (C1 & C2 & _). rewrite C1, C2, Wx, Wr. split; [|reflexivity].
    destruct ib; cbn [negb]; rewrite ?app_nil_r; [reflexivity|].
    destruct (String.eqb p "npm"); [|destruct (String.eqb p "yarn")];
      rewrite <- ?app_assoc; reflexivity.
Qed.

(** a failing pass fails before its first command and its first write *)
Lemma wrap_err_frame (names : option (list string)) (e : Env) (st : St) (msg : string) :
  fst (wrapFunctions names e st) = Err msg ->
  let st' := snd (wrapFunctions names e st) in
  functions st' = functions st /\ package st' = package st /\
  written st' = written st /\ executed st' = executed st.
Proof.
  intros H st'. subst st'. revert H.
  destruct (getFunctionsToWrap_ok names e st) as (fam & ts & s1 & Hg & Hf1 & Hp1 & Hw1 & Hx1 & Hr1 & Hm1).
  assert (Hfam := getFunctionsToWrap_family _ _ _ _ _ _ Hg).
  unfold wrapFunctions. rewrite (bind_ok _ _ _ _ _ _ Hg). mstep.
  destruct ts as [|t0 ts']; [simpl; discriminate|].
  cbn [length Nat.eqb]. mstep.
  match goal with |- context [add_logged ?m s1] => set (s2 := add_logged m s1) in * end.
  assert (Hf2 : functions s2 = functions st) by exact Hf1.
  assert (Hp2 : package s2 = package st) by exact Hp1.
  assert (Hw2 : written s2 = written st) by exact Hw1.
  assert (Hx2 : executed s2 = executed st) by exact Hx1.
  assert (Hm2 : isNodeTracerInstalled_memo s2 = isNodeTracerInstalled_memo st) by exact Hm1.
  clearbody s2.
  destruct (token (lumigo e)) as [t|]; mstep; [|intros _; cbv [throw snd]; auto].
  destruct fam.
  - mstep. pose proof (installLumigoNodejs_run e s2) as Hi. cbv zeta in Hi.
    set (ib := match isNodeTracerInstalled_memo s2 with
               | Some b => b
               | None => match packageJson e with Some b => b | None => false end
               end) in *.
    set (p := toLowerCase (match nodePackageManager_cfg (lumigo e) with Some m => m | None => "npm" end)) in *.
    destruct ib; [|destruct (String.eqb p "npm"); [|destruct (String.eqb p "yarn")]];
      try (rewrite (bind_err _ _ _ _ _ _ Hi); intros _; simpl; auto; fail);
      rewrite (bind_ok _ _ _ _ _ _ Hi);
      match type of Hi with _ = (_, ?s3') =>
        destruct (wrap_tail ".js" (fun f => createWrappedNodejsFunction f (Some t) (edgeHost (lumigo e)))
                    (t0 :: ts') e s3' (nodejs_body t (edgeHost (lumigo e)) e)) as (s5 & Ht & _) end;
      rewrite Ht; discriminate.
  - mstep.
    assert (Hp := pres_ensureLumigoPythonIsInstalled
                    (fun s => functions s = functions st /\ package s = package st /\
                              written s = written st /\ executed s = executed st)
                    (fun _ _ H => H) e s2 (conj Hf2 (conj Hp2 (conj Hw2 Hx2)))).
    destruct (ensureLumigoPythonIsInstalled e s2) as [[u|m] s3] eqn:Ei; simpl in Hp.
    + rewrite (bind_ok _ _ _ _ _ _ Ei).
      destruct (wrap_tail ".py" (fun f => createWrappedPythonFunction f t) (t0 :: ts') e s3 (python_body t e))
        as (s5 & Ht & _). rewrite Ht. discriminate.
    + rewrite (bind_err _ _ _ _ _ _ Ei). intros _. exact Hp.
  - discriminate Hfam.
Qed.

Lemma wrap_unknown_pm_err (names : option (list string)) (e : Env) (st : St) (t : string) :
  startsWith (provider_runtime e) "nodejs" = true ->
  token (lumigo e) = Some t ->
  eligible names e st <> [] ->
  match isNodeTracerInstalled_memo st with
  | Some b => b
  | None => match packageJson e with Some b => b | None => false end
  end = false ->
  String.eqb (toLowerCase (match nodePackageManager_cfg (lumigo e) with Some m => m | None => "npm" end)) "npm" = false ->
  String.eqb (toLowerCase (match nodePackageManager_cfg (lumigo e) with Some m => m | None => "npm" end)) "yarn" = false ->
  fst (wrapFunctions names e st) = Err no_package_manager_msg.
Proof.
  intros Hn Ht Hne Hins Hnpm Hyarn.
  destruct (getFunctionsToWrap_ok names e st) as (fam & ts & s1 & Hg & _ & _ & _ & _ & _ & Hm1).
  rewrite <- (getFunctionsToWrap_eligible _ _ _ _ _ _ Hg) in Hne.
  assert (Hfam := getFunctionsToWrap_family _ _ _ _ _ _ Hg).
  unfold wrapFunctions. rewrite (bind_ok _ _ _ _ _ _ Hg). mstep.
  destruct ts as [|t0 ts']; [contradiction|].
  cbn [length Nat.eqb]. mstep. rewrite Ht. mstep.
  destruct fam; [|rewrite Hn in Hfam; destruct Hfam; discriminate|discriminate].
  mstep.
  pose proof (installLumigoNodejs_run e (add_logged ("serverless-lumigo: " ++
    ("there are " ++ nat_to_string (length (t0 :: ts')) ++ " function(s) to wrap...")) s1)) as Hi.
  cbv zeta in Hi. simpl isNodeTracerInstalled_memo in Hi.
  rewrite Hm1, Hins, Hnpm, Hyarn in Hi.
  rewrite (bind_err _ _ _ _ _ _ Hi). reflexivity.
Qed.

Lemma loop_functions (body : Target -> M string) (hf : Target -> string) (ts : list Target) (e : Env) (s : St) :
  (forall f s0, exists w, body f e s0 = (Ok (hf f), add_written w s0)) ->
  functions (snd (for_each (fun func => h <- body func ;; setHandler (localName func) h) ts e s)) =
  fold_left (fun fs f => map (fun kv => if String.eqb (fst kv) (localName f)
                                        then (fst kv, set_handler_decl (hf f) (snd kv)) else kv) fs)
            ts (functions s).
Proof.
  intros Hb. revert s. induction ts as [|f ts IH]; intros s; [reflexivity|].
  destruct (Hb f s) as (w & Hf). simpl.
  rewrite bind_assoc, (bind_ok _ _ _ _ _ _ Hf).
  unfold setHandler. rewrite bind_modify. cbv beta. rewrite IH. reflexivity.
Qed.

Lemma find_localName_absent (n : string) (ts : list Target) :
  ~ In n (map localName ts) -> find (fun g => String.eqb (localName g) n) ts = None.
Proof.
  induction ts as [|g ts IH]; simpl; intros H; [reflexivity|].
  destruct (String.eqb (localName g) n) eqn:E.
  - apply String.eqb_eq in E. tauto.
  - apply IH. tauto.
Qed.

Lemma fold_handlers (hf : Target -> string) (ts : list Target) (fs : list (string * FunctionDecl)) :
  NoDup (map localName ts) ->
  fold_left (fun fs f => map (fun kv => if String.eqb (fst kv) (localName f)
                                        then (fst kv, set_handler_decl (hf f) (snd kv)) else kv) fs)
            ts fs =
  map (fun kv => match find (fun f => String.eqb (localName f) (fst kv)) ts with
                 | Some f => (fst kv, set_handler_decl (hf f) (snd kv))
                 | None => kv
                 end) fs.
Proof.
  revert fs. induction ts as [|f ts IH]; intros fs Hnd; simpl.
  - symmetry. apply map_id.
  - inversion Hnd as [|? ? Hnin Hnd']. subst.
    rewrite IH by exact Hnd'. rewrite map_map. apply map_ext. intros [k d]. simpl.
    destruct (String.eqb k (localName f)) eqn:E.
    + apply String.eqb_eq in E. subst k. simpl.
      rewrite find_localName_absent by exact Hnin. now rewrite String.eqb_refl.
    + rewrite String.eqb_sym, E. reflexivity.
Qed.

Lemma lookup_fn_nodup (k : string) (d : FunctionDecl) (fs : list (string * FunctionDecl)) :
  NoDup (map fst fs) -> In (k, d) fs -> lookup_fn k fs = Some d.
Proof.
  induction fs as [|[k' d'] fs IH]; simpl; [tauto|].
  intros Hnd Hin. inversion Hnd as [|? ? Hnin Hnd']. subst.
  destruct Hin as [Heq|Hin].
  - inversion Heq. subst. now rewrite String.eqb_refl.
  - destruct (String.eqb k' k) eqn:E; [|now apply IH].
    apply String.eqb_eq in E. subst k'. exfalso. apply Hnin.
    change k with (fst (k, d)). now apply in_map.
Qed.

Lemma find_targets (fs : list (string * FunctionDecl)) (L : list string) (k : string) :
  (forall n, In n L -> In n (map fst fs)) ->
  find (fun f => String.eqb (localName f) k)
       (flat_map (fun n => match lookup_fn n fs with
                           | Some d => [mkTarget n d]
                           | None => []
                           end) L) =
  if arr_includes L k
  then match lookup_fn k fs with Some d => Some (mkTarget k d) | None => None end
  else None.
Proof.
  induction L as [|n L IH]; intros H; [reflexivity|].
  destruct (lookup_fn_in n fs (H n (or_introl eq_refl))) as [dn Hdn].
  cbn [flat_map]. rewrite Hdn. cbn [app find localName].
  unfold arr_includes. cbn [existsb].
  destruct (String.eqb n k) eqn:E.
  - apply String.eqb_eq in E. subst n. rewrite String.eqb_refl, Hdn. reflexivity.
  - rewrite String.eqb_sym, E. cbn [orb]. apply IH. intros m Hm. apply H. now right.
Qed.

(** the targets of [getFunctionsToWrap], looked up by name *)
Lemma getFunctionsToWrap_find (names : option (list string)) (e : Env) (s : St) fam ts s1 (k : string) :
  getFunctionsToWrap names e s = (Ok (fam, ts), s1) ->
  find (fun f => String.eqb (localName f) k) ts =
  if arr_includes (map localName ts) k
  then match lookup_fn k (functions s) with Some d => Some (mkTarget k d) | None => None end
  else None.
Proof.
  unfold getFunctionsToWrap, getAllFunctions. mstep.
  set (L := filter (arr_includes (match names with Some l => l | None => map fst (functions s) end))
                   (map fst (functions s))).
  assert (HL : forall n, In n L -> In n (map fst (functions s))).
  { intros n Hn. apply filter_In in Hn. tauto. }
  assert (Ht := targets_names (functions s) L HL).
  assert (Hf := find_targets (functions s) L k HL).
  destruct (startsWith (provider_runtime e) "nodejs"); mstep;
    [intros H; inversion H; subst; now rewrite Ht|].
  destruct (startsWith (provider_runtime e) "python3"); mstep;
    [intros H; inversion H; subst; now rewrite Ht|].
  intros H; inversion H; subst. reflexivity.
Qed.

Lemma eligible_nodup (names : option (list string)) (e : Env) (st : St) :
  NoDup (map fst (functions st)) -> NoDup (eligible names e st).
Proof.
  intros H. rewrite eligible_spec.
  destruct (_ || _); [now apply NoDup_filter | constructor].
Qed.

(** the handler the wrap step computes for the artifact [<name>.<ext>] *)
Lemma artifact_handler (e : Env) (sp' k ext fn : string) :
  servicePath e = String slash sp' -> has_char slash k = false ->
  has_char slash ext = false -> has_char dot ext = false -> 2 <= String.length ext ->
  tracedHandler (relative (cwd e) (servicePath e) (path_join [folderPath e; k ++ String dot ext])) fn =
  "_lumigo/" ++ k ++ "." ++ fn.
Proof.
  intros Hsp Hk Hs Hd Hl. unfold folderPath. rewrite Hsp.
  change (k ++ String dot ext) with (k ++ "." ++ ext).
  rewrite (artifact_relative (cwd e) sp' k ext Hk Hs Hl).
  replace ("_lumigo/" ++ k ++ "." ++ ext) with (("_lumigo/" ++ k) ++ String dot ext)
    by (rewrite str_app_assoc; reflexivity).
  rewrite tracedHandler_ext by exact Hd. now rewrite str_app_assoc.
Qed.

Lemma wrap_tail_functions (ext : string) (body : Target -> M string) (hf : Target -> string)
  (ts : list Target) (e : Env) (s : St) :
  (forall f s0, exists c, body f e s0 = (Ok (hf f), add_written (path_join [folderPath e; localName f ++ ext], c) s0)) ->
  exists s', (for_each (fun func => h <- body func ;; setHandler (localName func) h) ts ;;; includeLumigoFolder) e s = (Ok tt, s') /\
    functions s' =
    fold_left (fun fs f => map (fun kv => if String.eqb (fst kv) (localName f)
                                          then (fst kv, set_handler_decl (hf f) (snd kv)) else kv) fs)
              ts (functions s).
Proof.
  intros Hb.
  destruct (wrap_loop_written ext body ts e s) as (s4 & Hl & _).
  { intros f s0. destruct (Hb f s0) as [c Hc]. eauto. }
  assert (Hf4 := loop_functions body hf ts e s).
  rewrite Hl in Hf4. simpl in Hf4.
  rewrite (bind_ok _ _ _ _ _ _ Hl).
  destruct (includeLumigoFolder_effects e s4) as (s5 & Hi & Hf5 & _).
  exists s5. split; [exact Hi|]. rewrite Hf5. apply Hf4.
  intros f s0. destruct (Hb f s0) as [c Hc]. eauto.
Qed.

(** X8. Under an absolute service path, with distinct function names and
    eligible names free of "/", a successful pass sets the handler of each
    eligible function to "_lumigo/<name>.<funcName>", funcName being the
    function name parsed from its old handler, and leaves the other
    functions unchanged. *)
Theorem wrapFunctions_new_handlers (names : option (list string)) (e : Env) (st : St) (sp' : string) :
  servicePath e = String slash sp' ->
  NoDup (map fst (functions st)) ->
  Forall (fun n => has_char slash n = false) (eligible names e st) ->
  fst (wrapFunctions names e st) = Ok tt ->
  functions (snd (wrapFunctions names e st)) =
  map (fun kv => if arr_includes (eligible names e st) (fst kv)
                 then (fst kv, set_handler_decl ("_lumigo/" ++ fst kv ++ "." ++ handlerFuncName (handler (snd kv)))
                                                (snd kv))
                 else kv)
      (functions st).
Proof.
  intros Hsp Hnd Hsl.
  assert (HndE := eligible_nodup names e st Hnd).
  destruct (getFunctionsToWrap_ok names e st) as (fam & ts & s1 & Hg & Hf1 & _).
  assert (Hfind := fun k => getFunctionsToWrap_find names e st fam ts s1 k Hg).
  rewrite <- (getFunctionsToWrap_eligible _ _ _ _ _ _ Hg) in *.
  assert (Hfam := getFunctionsToWrap_family _ _ _ _ _ _ Hg).
  (* the handlers the loop computes, for either family *)
  assert (Hfin : forall ext, has_char slash ext = false -> has_char dot ext = false -> 2 <= String.length ext ->
    fold_left (fun fs f => map (fun kv => if String.eqb (fst kv) (localName f)
        then (fst kv, set_handler_decl
                        (tracedHandler (relative (cwd e) (servicePath e)
                                          (path_join [folderPath e; localName f ++ String dot ext]))
                                       (handlerFuncName (handler (decl f)))) (snd kv)) else kv) fs)
      ts (functions st) =
    map (fun kv => if arr_includes (map localName ts) (fst kv)
                   then (fst kv, set_handler_decl ("_lumigo/" ++ fst kv ++ "." ++ handlerFuncName (handler (snd kv)))
                                                  (snd kv))
                   else kv) (functions st)).
  { intros ext H1 H2 H3. rewrite fold_handlers by exact HndE.
    apply map_ext_in. intros [k d] Hin. cbn [fst snd]. rewrite Hfind.
    destruct (arr_includes (map localName ts) k) eqn:Ek; [|reflexivity].
    rewrite (lookup_fn_nodup k d _ Hnd Hin). cbn [localName decl].
    rewrite (artifact_handler e sp' k ext _ Hsp); try assumption; [reflexivity|].
    apply arr_includes_In in Ek. rewrite Forall_forall in Hsl. exact (Hsl k Ek). }
  unfold wrapFunctions. rewrite (bind_ok _ _ _ _ _ _ Hg). mstep.
  destruct ts as [|t0 ts'].
  { intros _. simpl. rewrite Hf1. symmetry. apply map_id. }
  cbn [length Nat.eqb]. mstep.
  match goal with |- context [add_logged ?m s1] => set (s2 := add_logged m s1) in * end.
  assert (Hf2 : functions s2 = functions st) by exact Hf1. clearbody s2.
  destruct (token (lumigo e)) as [t|]; mstep; [|intros H; discriminate H].
  destruct fam.
  - mstep.
    assert (Hp := pres_installLumigoNodejs (fun s => functions s = functions st)
                    (fun _ _ H => H) (fun _ _ H => H) (fun _ _ H => H) e s2 Hf2).
    destruct (installLumigoNodejs e s2) as [[u|m] s3] eqn:Ei; simpl in Hp.
    + rewrite (bind_ok _ _ _ _ _ _ Ei).
      destruct (wrap_tail_functions ".js" (fun f => createWrappedNodejsFunction f (Some t) (edgeHost (lumigo e)))
                  (fun f => tracedHandler (relative (cwd e) (servicePath e) (path_join [folderPath e; localName f ++ ".js"]))
                                          (handlerFuncName (handler (decl f))))
                  (t0 :: ts') e s3) as (s5 & Ht & Hf5).
      { intros f s0. eexists. exact (createWrappedNodejsFunction_run f t _ e s0). }
      rewrite Ht. intros _. simpl snd. rewrite Hf5, Hp. exact (Hfin "js" eq_refl eq_refl (le_n 2)).
    + rewrite (bind_err _ _ _ _ _ _ Ei). intros H; discriminate H.
  - mstep.
    assert (Hp := pres_ensureLumigoPythonIsInstalled (fun s => functions s = functions st)
                    (fun _ _ H => H) e s2 Hf2).
    destruct (ensureLumigoPythonIsInstalled e s2) as [[u|m] s3] eqn:Ei; simpl in Hp.
    + rewrite (bind_ok _ _ _ _ _ _ Ei).
      destruct (wrap_tail_functions ".py" (fun f => createWrappedPythonFunction f t)
                  (fun f => tracedHandler (relative (cwd e) (servicePath e) (path_join [folderPath e; localName f ++ ".py"]))
                                          (handlerFuncName (handler (decl f))))
                  (t0 :: ts') e s3) as (s5 & Ht & Hf5).
      { intros f s0. eexists. exact (createWrappedPythonFunction_run f t e s0). }
      rewrite Ht. intros _. simpl snd. rewrite Hf5, Hp. exact (Hfin "py" eq_refl eq_refl (le_n 2)).
    + rewrite (bind_err _ _ _ _ _ _ Ei). intros H; discriminate H.
  - discriminate Hfam.
Qed.

Lemma has_char_split_join (s : string) : has_char slash (split_join slash dot s) = false.
Proof.
  induction s as [|a s IH]; simpl; [reflexivity|].
  rewrite IH, orb_false_r.
  destruct (Ascii.eqb a slash) eqn:E; [reflexivity|exact E].
Qed.

(** X9. For a handler "<p>.<f>" whose function name f has no "." and no
    "/", the python module path is p with every "/" turned into "." (so it
    holds no "/"), and the python wrapper imports f from that module. *)
Theorem python_wrapper_import (p f t : string) :
  has_char dot f = false -> has_char slash f = false ->
  let h := p ++ "." ++ f in
  pythonHandlerModulePath h = split_join slash dot p /\
  has_char slash (pythonHandlerModulePath h) = false /\
  includes ("from " ++ split_join slash dot p ++ " import " ++ f ++ " as userHandler")
    (pythonWrapper t (pythonHandlerModulePath h) (handlerFuncName h)) = true.
Proof.
  intros Hd Hs h. subst h. change ("." ++ f) with (String dot f).
  assert (Hm : pythonHandlerModulePath (p ++ String dot f) = split_join slash dot p).
  { unfold pythonHandlerModulePath. f_equal. exact (handlerModulePath_last p f Hd). }
  rewrite Hm, (handlerFuncName_last p f Hd Hs).
  split; [reflexivity|]. split; [apply has_char_split_join|].
  destruct (pythonWrapper_shape t (split_join slash dot p) f) as [B HB]. rewrite HB. apply includes_app.
Qed.

Lemma nodejsWrapper_require (params mp fn : string) :
  exists a b, nodejsWrapper params mp fn = a ++ ("const handler = " ++ ("require('../" ++ mp ++ "')")) ++ b.
Proof.
  exists (NL ++ "const tracer = require(" ++ DQ ++ "@lumigo/tracer" ++ DQ ++ ")({" ++ NL ++
          TAB ++ params ++ NL ++ "});" ++ NL),
         ("." ++ fn ++ ";" ++ NL ++ NL ++ "module.exports." ++ fn ++ " = tracer.trace(handler);" ++ NL ++ "    ").
  unfold nodejsWrapper. rewrite !str_app_assoc. reflexivity.
Qed.

(** X10. Wrapping again a function whose handler already is
    "_lumigo/<name>.<fn>" keeps the handler, and writes the wrapper
    _lumigo/<name>.js that requires '../_lumigo/<name>', the wrapper
    file itself. *)
Theorem nodejs_rewrap_fixed_point (e : Env) (s : St) (sp' ln fn t : string) (d : FunctionDecl) (edge : option string) :
  servicePath e = String slash sp' -> has_char slash ln = false ->
  has_char dot fn = false -> has_char slash fn = false ->
  handler d = "_lumigo/" ++ ln ++ "." ++ fn ->
  let r := createWrappedNodejsFunction (mkTarget ln d) (Some t) edge e s in
  fst r = Ok (handler d) /\
  exists content, written (snd r) = app (written s) [(path_join [folderPath e; ln ++ ".js"], content)] /\
    includes ("require('../" ++ "_lumigo/" ++ ln ++ "')") content = true.
Proof.
  intros Hsp Hln Hd Hs Hh r. subst r.
  pose proof (createWrappedNodejsFunction_run (mkTarget ln d) t edge e s) as Hr. cbv zeta in Hr.
  cbn [localName decl] in Hr.
  replace (handler d) with (("_lumigo/" ++ ln) ++ String dot fn) in *
    by (rewrite Hh, str_app_assoc; reflexivity).
  rewrite (handlerModulePath_last _ _ Hd), (handlerFuncName_last _ _ Hd Hs) in Hr.
  rewrite Hr. split.
  - cbn [fst]. f_equal. change (ln ++ ".js") with (ln ++ String dot "js").
    rewrite (artifact_handler e sp' ln "js" fn Hsp Hln eq_refl eq_refl (le_n 2)).
    now rewrite str_app_assoc.
  - eexists. split; [reflexivity|].
    match goal with |- includes _ (nodejsWrapper ?pa _ _) = _ =>
      destruct (nodejsWrapper_require pa ("_lumigo/" ++ ln) fn) as (a & b & Hw) end.
    rewrite Hw, (str_app_assoc "_lumigo/" ln "')"). apply includes_mid.
Qed.

Lemma loop_package (body : Target -> M string) (ts : list Target) (e : Env) (s : St) :
  (forall f s0, exists h w, body f e s0 = (Ok h, add_written w s0)) ->
  package (snd (for_each (fun func => h <- body func ;; setHandler (localName func) h) ts e s)) = package s.
Proof.
  intros Hb. revert s. induction ts as [|f ts IH]; intros s; [reflexivity|].
  destruct (Hb f s) as (h & w & Hf). simpl.
  rewrite bind_assoc, (bind_ok _ _ _ _ _ _ Hf).
  unfold setHandler. rewrite bind_modify. cbv beta. rewrite IH. reflexivity.
Qed.

Lemma includeLumigoFolder_package (e : Env) (s : St) :
  fst (includeLumigoFolder e s) = Ok tt /\
  package (snd (includeLumigoFolder e s)) = option_map with_lumigo_include (package s).
Proof.
  unfold includeLumigoFolder. mstep. destruct (package s) eqn:E; mstep; cbv [modify ret fst snd];
    simpl; rewrite ?E; unfold with_lumigo_include; auto.
Qed.

Lemma wrap_tail_package (ext : string) (body : Target -> M string) (ts : list Target) (e : Env) (s : St) :
  (forall f s0, exists h c, body f e s0 = (Ok h, add_written (path_join [folderPath e; localName f ++ ext], c) s0)) ->
  exists s', (for_each (fun func => h <- body func ;; setHandler (localName func) h) ts ;;; includeLumigoFolder) e s = (Ok tt, s') /\
    package s' = option_map with_lumigo_include (package s).
Proof.
  intros Hb. destruct (wrap_loop_written ext body ts e s Hb) as (s4 & Hl & _).
  assert (Hp4 := loop_package body ts e s).
  rewrite Hl in Hp4. simpl in Hp4.
  rewrite (bind_ok _ _ _ _ _ _ Hl).
  destruct (includeLumigoFolder_package e s4) as [Hi Hp5].
  exists (snd (includeLumigoFolder e s4)). split.
  - destruct (includeLumigoFolder e s4) as [r s5]. simpl in Hi. now subst r.
  - rewrite Hp5, Hp4; [reflexivity|].
    intros f s0. destruct (Hb f s0) as (h & c & Hc). eauto.
Qed.

(** X11. A successful pass with eligible functions appends "_lumigo/*"
    to the package include list when a package object exists, even if it
    is already listed; with nothing eligible the package is unchanged. *)
Theorem wrapFunctions_include_appended (names : option (list string)) (e : Env) (st : St) :
  fst (wrapFunctions names e st) = Ok tt ->
  package (snd (wrapFunctions names e st)) =
  match eligible names e st with
  | [] => package st
  | _ :: _ => option_map with_lumigo_include (package st)
  end.
Proof.
  destruct (getFunctionsToWrap_ok names e st) as (fam & ts & s1 & Hg & _ & Hp1 & _).
  rewrite <- (getFunctionsToWrap_eligible _ _ _ _ _ _ Hg).
  assert (Hfam := getFunctionsToWrap_family _ _ _ _ _ _ Hg).
  unfold wrapFunctions. rewrite (bind_ok _ _ _ _ _ _ Hg). mstep.
  destruct ts as [|t0 ts']; [intros _; exact Hp1|].
  cbn [length Nat.eqb map]. mstep.
  match goal with |- context [add_logged ?m s1] => set (s2 := add_logged m s1) in * end.
  assert (Hp2 : package s2 = package st) by exact Hp1. clearbody s2.
  destruct (token (lumigo e)) as [t|]; mstep; [|intros H; discriminate H].
  destruct fam.
  - mstep.
    assert (Hp := pres_installLumigoNodejs (fun s => package s = package st)
                    (fun _ _ H => H) (fun _ _ H => H) (fun _ _ H => H) e s2 Hp2).
    destruct (installLumigoNodejs e s2) as [[u|m] s3] eqn:Ei; simpl in Hp.
    + rewrite (bind_ok _ _ _ _ _ _ Ei).
      destruct (wrap_tail_package ".js" (fun f => createWrappedNodejsFunction f (Some t) (edgeHost (lumigo e)))
                  (t0 :: ts') e s3 (nodejs_body t (edgeHost (lumigo e)) e)) as (s5 & Ht & Hp5).
      rewrite Ht. intros _. simpl. now rewrite Hp5, Hp.
    + rewrite (bind_err _ _ _ _ _ _ Ei). intros H; discriminate H.
  - mstep.
    assert (Hp := pres_ensureLumigoPythonIsInstalled (fun s => package s = package st)
                    (fun _ _ H => H) e s2 Hp2).
    destruct (ensureLumigoPythonIsInstalled e s2) as [[u|m] s3] eqn:Ei; simpl in Hp.
    + rewrite (bind_ok _ _ _ _ _ _ Ei).
      destruct (wrap_tail_package ".py" (fun f => createWrappedPythonFunction f t)
                  (t0 :: ts') e s3 (python_body t e)) as (s5 & Ht & Hp5).
      rewrite Ht. intros _. simpl. now rewrite Hp5, Hp.
    + rewrite (bind_err _ _ _ _ _ _ Ei). intros H; discriminate H.
  - discriminate Hfam.
Qed.

(** X12. The deploy-function hook without a function option wraps
    nothing: it succeeds and changes no function, package, file or
    command. With a function option n, it changes no declared function
    other than n. *)
Theorem afterDeployFunctionInitialize_scope (e : Env) (st : St) :
  let st' := snd (afterDeployFunctionInitialize e st) in
  match option_function e with
  | None =>
      fst (afterDeployFunctionInitialize e st) = Ok tt /\
      functions st' = functions st /\ package st' = package st /\
      written st' = written st /\ executed st' = executed st
  | Some n =>
      Forall2 (fun kd kd' => fst kd' = fst kd /\ (fst kd <> n -> kd' = kd)) (functions st) (functions st')
  end.
Proof.
  intros st'. subst st'. unfold afterDeployFunctionInitialize. mstep.
  destruct (option_function e) as [n|].
  - destruct (wrap_frame (Some [n]) e st) as [HF _].
    eapply Forall2_impl; [|exact HF]. intros [k d] [k' d'] (H1 & _ & H3). cbn [fst snd] in *.
    subst k'. split; [reflexivity|]. intros Hkn. f_equal. apply H3. intros Hin.
    rewrite eligible_spec in Hin. destruct (_ || _); [|exact Hin].
    apply filter_In in Hin as [_ Hin]. apply arr_includes_In in Hin as [Hin|[]]. congruence.
  - destruct (getFunctionsToWrap_ok (Some []) e st) as (fam & ts & s1 & Hg & Hf1 & Hp1 & Hw1 & Hx1 & _).
    assert (He := getFunctionsToWrap_eligible _ _ _ _ _ _ Hg).
    rewrite eligible_spec in He. destruct (_ || _) in He;
      [rewrite filter_none_declared in He by (intros ? []) |];
      destruct ts; try discriminate He.
    all: unfold wrapFunctions; rewrite (bind_ok _ _ _ _ _ _ Hg); mstep; simpl; auto.
Qed.





(** X1. [installLumigoNodejs] reads "installed" from the memoised flag,
    or else from package.json, and memoises it. When installed it does
    nothing else. Otherwise it logs, then runs the one install command of
    the lower-cased package manager (npm by default); any other manager
    is an error raised before any command runs. *)
Theorem installLumigoNodejs_outcome (e : Env) (s : St) :
  let installed := match isNodeTracerInstalled_memo s with
                   | Some b => b
                   | None => match packageJson e with Some b => b | None => false end
                   end in
  let pm := toLowerCase (match nodePackageManager_cfg (lumigo e) with Some m => m | None => "npm" end) in
  let s1 := add_logged "serverless-lumigo: installing @lumigo/tracer..." (set_memo installed s) in
  installLumigoNodejs e s =
  if installed then (Ok tt, set_memo installed s)
  else if String.eqb pm "npm" then (Ok tt, add_executed "npm install --no-save @lumigo/tracer@latest" s1)
  else if String.eqb pm "yarn" then (Ok tt, add_executed "yarn add @lumigo/tracer@latest" s1)
  else (Err no_package_manager_msg, s1).
Proof. exact (installLumigoNodejs_run e s). Qed.

(** X7. The only command a pass can run is the tracer install: one
    command, only under a nodejs runtime with eligible functions, a token,
    the tracer not yet installed and the npm or yarn manager. A pass never
    removes anything, and under a nodejs runtime with eligible functions
    and a token it memoises whether the tracer was installed. *)
Theorem wrapFunctions_commands (names : option (list string)) (e : Env) (st : St) :
  let st' := snd (wrapFunctions names e st) in
  let installed := match isNodeTracerInstalled_memo st with
                   | Some b => b
                   | None => match packageJson e with Some b => b | None => false end
                   end in
  let pm := toLowerCase (match nodePackageManager_cfg (lumigo e) with Some m => m | None => "npm" end) in
  let active := startsWith (provider_runtime e) "nodejs" &&
                match eligible names e st with [] => false | _ => true end &&
                match token (lumigo e) with Some _ => true | None => false end in
  executed st' = app (executed st)
    (if active && negb installed
     then (if String.eqb pm "npm" then ["npm install --no-save @lumigo/tracer@latest"]
           else if String.eqb pm "yarn" then ["yarn add @lumigo/tracer@latest"] else [])
     else []) /\
  removed st' = removed st /\
  isNodeTracerInstalled_memo st' = (if active then Some installed else isNodeTracerInstalled_memo st).
Proof. exact (wrap_exec_memo names e st). Qed.

(** X5. A pass that fails has run no command, written no file and
    changed no function or package. *)
Theorem wrapFunctions_failure_atomic (names : option (list string)) (e : Env) (st : St) (msg : string) :
  fst (wrapFunctions names e st) = Err msg ->
  let st' := snd (wrapFunctions names e st) in
  functions st' = functions st /\ package st' = package st /\
  written st' = written st /\ executed st' = executed st.
Proof. exact (wrap_err_frame names e st msg). Qed.

(** X6. Under a nodejs runtime with a token, eligible functions, the
    tracer not installed and a package manager other than npm or yarn, the
    pass fails with the package-manager error, having run nothing and
    written nothing. *)
Theorem wrapFunctions_unknown_package_manager (names : option (list string)) (e : Env) (st : St) (t : string) :
  startsWith (provider_runtime e) "nodejs" = true ->
  token (lumigo e) = Some t ->
  eligible names e st <> [] ->
  match isNodeTracerInstalled_memo st with
  | Some b => b
  | None => match packageJson e with Some b => b | None => false end
  end = false ->
  String.eqb (toLowerCase (match nodePackageManager_cfg (lumigo e) with Some m => m | None => "npm" end)) "npm" = false ->
  String.eqb (toLowerCase (match nodePackageManager_cfg (lumigo e) with Some m => m | None => "npm" end)) "yarn" = false ->
  let st' := snd (wrapFunctions names e st) in
  fst (wrapFunctions names e st) = Err no_package_manager_msg /\
  functions st' = functions st /\ written st' = written st /\ executed st' = executed st.
Proof.
  intros Hn Ht Hne Hins Hnpm Hyarn st'.
  assert (Herr := wrap_unknown_pm_err names e st t Hn Ht Hne Hins Hnpm Hyarn).
  destruct (wrap_err_frame names e st _ Herr) as (Hf & _ & Hw & Hx).
  auto.
Qed.

Lemma nodejs_package_lifecycle_witness :
  let e := test_env "nodejs12.x" (test_config (Some "t") None) in
  let st := test_st [("hello", plain_fn "hello.world"); ("bye", plain_fn "bye.world")] in
  let st2 := snd (afterCreateDeploymentArtifacts e (snd (afterPackageInitialize e st))) in
  let installed := match isNodeTracerInstalled_memo st with
                   | Some b => b
                   | None => match packageJson e with Some b => b | None => false end
                   end in
  let pm := toLowerCase (match nodePackageManager_cfg (lumigo e) with Some m => m | None => "npm" end) in
  executed st2 = app (executed st)
    (match eligible None e st with
     | [] => []
     | _ :: _ =>
         if installed then []
         else if String.eqb pm "npm"
         then ["npm install --no-save @lumigo/tracer@latest"; "npm uninstall @lumigo/tracer"]
         else if String.eqb pm "yarn"
         then ["yarn add @lumigo/tracer@latest"; "yarn remove @lumigo/tracer"]
         else []
     end) /\
  removed st2 = app (removed st) (match eligible None e st with [] => [] | _ :: _ => [folderPath e] end).
Proof.
  exact (nodejs_package_lifecycle (test_env "nodejs12.x" (test_config (Some "t") None))
           (test_st [("hello", plain_fn "hello.world"); ("bye", plain_fn "bye.world")]) "t" eq_refl eq_refl).
Defined.

Lemma wrapFunctions_failure_atomic_witness :
  let e := test_env "nodejs12.x" (test_config None None) in
  let st := test_st [("hello", plain_fn "hello.world")] in
  fst (wrapFunctions None e st) = Err missing_token_msg /\
  let st' := snd (wrapFunctions None e st) in
  functions st' = functions st /\ package st' = package st /\
  written st' = written st /\ executed st' = executed st.
Proof.
  split; [vm_compute; reflexivity|].
  apply (wrapFunctions_failure_atomic None _ _ missing_token_msg). vm_compute. reflexivity.
Defined.

Lemma wrapFunctions_unknown_package_manager_witness :
  let e := mkEnv "/svc" "/" "nodejs12.x" (mkLumigoConfig (Some "t") None (Some "pnpm") None)
                 None [] None [] None in
  let st := test_st [("hello", plain_fn "hello.world")] in
  let st' := snd (wrapFunctions None e st) in
  fst (wrapFunctions None e st) = Err no_package_manager_msg /\
  functions st' = functions st /\ written st' = written st /\ executed st' = executed st.
Proof.
  apply (wrapFunctions_unknown_package_manager None _ _ "t"); try reflexivity.
  vm_compute. discriminate.
Defined.

Lemma wrapFunctions_new_handlers_witness :
  let e := test_env "python3.8" (test_config (Some "t") None) in
  let st := test_st [("hello", plain_fn "functions/hello.world.handler"); ("bye", plain_fn "bye.main")] in
  functions (snd (wrapFunctions (Some ["hello"]) e st)) =
  map (fun kv => if arr_includes (eligible (Some ["hello"]) e st) (fst kv)
                 then (fst kv, set_handler_decl ("_lumigo/" ++ fst kv ++ "." ++ handlerFuncName (handler (snd kv)))
                                                (snd kv))
                 else kv)
      (functions st).
Proof.
  apply (wrapFunctions_new_handlers _ _ _ "svc").
  - reflexivity.
  - vm_compute. repeat constructor; simpl; intuition discriminate.
  - vm_compute. repeat constructor.
  - vm_compute. reflexivity.
Defined.

Lemma python_wrapper_import_witness :
  let h := "foo.bar/zoo" ++ "." ++ "handler" in
  pythonHandlerModulePath h = split_join slash dot "foo.bar/zoo" /\
  has_char slash (pythonHandlerModulePath h) = false /\
  includes ("from " ++ split_join slash dot "foo.bar/zoo" ++ " import " ++ "handler" ++ " as userHandler")
    (pythonWrapper "t" (pythonHandlerModulePath h) (handlerFuncName h)) = true.
Proof. apply python_wrapper_import; reflexivity. Defined.

Lemma nodejs_rewrap_fixed_point_witness :
  let d := plain_fn ("_lumigo/" ++ "hello" ++ "." ++ "world") in
  let e := test_env "nodejs12.x" (test_config (Some "t") None) in
  let r := createWrappedNodejsFunction (mkTarget "hello" d) (Some "t") None e (test_st []) in
  fst r = Ok (handler d) /\
  exists content, written (snd r) = app (written (test_st [])) [(path_join [folderPath e; "hello" ++ ".js"], content)] /\
    includes ("require('../" ++ "_lumigo/" ++ "hello" ++ "')") content = true.
Proof. apply (nodejs_rewrap_fixed_point _ _ "svc" "hello" "world"); reflexivity. Defined.

Lemma wrapFunctions_include_appended_witness :
  let e := test_env "nodejs12.x" (test_config (Some "t") None) in
  let st := mkSt [("hello", plain_fn "hello.world")] (Some (mkPackage (Some ["_lumigo/*"]) None))
                 None [] [] [] [] in
  package (snd (wrapFunctions None e st)) =
  match eligible None e st with
  | [] => package st
  | _ :: _ => option_map with_lumigo_include (package st)
  end.
Proof. apply wrapFunctions_include_appended. vm_compute. reflexivity. Defined.
